(** * StandOutSearch scraper: a shallow embedding of
      [src/jobspy/scrapers/standoutsearch/__init__.py]

    The three methods of [StandOutSearcher] ([scrape], [_find_jobs_in_page],
    [_process_job]) and [_parse_job_details] are written in a small monad
    that threads the state of the outside world (the site), raises Python
    exceptions and records the calls made to the collaborators (HTTP
    session, detail fetcher, logger, [time.sleep]).

    Collaborators that the module imports are parameters of the embedding:
    the session's [get], the inherited [fetch_html] and the HTML parser.
    The tree the parser produces and the handful of tree operations the
    code calls on it ([find_all], [find], [find_next_sibling],
    [get_text(strip=True)], [tag[key]]) are modelled on the tree type
    below. *)

From Stdlib Require Import String Ascii List ZArith Bool Lia DecimalString.
From Stdlib Require Import DecimalZ FinFun.
Import ListNotations.
Local Open Scope string_scope.
Local Open Scope Z_scope.

Set Implicit Arguments.
Set Warnings "-register-all".

(* ================================================================== *)
(** ** Python values used by the module *)
(* ================================================================== *)

Module Py.

(** [str(n)] for an [int], as used by the f-strings of the module. *)
Definition str_of_int (n : Z) : string :=
  NilZero.string_of_int (Z.to_int n).

(** Code points that [str.isspace] accepts, among those below 256. *)
Definition isspace (c : ascii) : bool :=
  let n := nat_of_ascii c in
  (((9 <=? n) && (n <=? 13)) || ((28 <=? n) && (n <=? 32))
   || (n =? 133) || (n =? 160))%nat.

Fixpoint lstrip (s : string) : string :=
  match s with
  | EmptyString => EmptyString
  | String c rest => if isspace c then lstrip rest else s
  end.

Fixpoint rev_onto (s acc : string) : string :=
  match s with
  | EmptyString => acc
  | String c rest => rev_onto rest (String c acc)
  end.

Definition reverse (s : string) : string := rev_onto s EmptyString.

Definition rstrip (s : string) : string := reverse (lstrip (reverse s)).

(** [s.strip()] *)
Definition strip (s : string) : string := rstrip (lstrip s).

(** The string begins, or ends, with a character that [strip] removes. *)
Definition starts_with_space (s : string) : bool :=
  match s with
  | EmptyString => false
  | String c _ => isspace c
  end.

Definition ends_with_space (s : string) : bool :=
  starts_with_space (reverse s).

(** Stripping the string would not change its ends. *)
Definition trimmed (s : string) : Prop :=
  starts_with_space s = false /\ ends_with_space s = false.

(** [l[:stop]] on a list: a negative [stop] counts from the end. *)
Definition slice_to {A : Type} (l : list A) (stop : Z) : list A :=
  if 0 <=? stop then firstn (Z.to_nat stop) l
  else firstn (Z.to_nat (Z.of_nat (length l) + stop)) l.

(** [len(l)] *)
Definition len {A : Type} (l : list A) : Z := Z.of_nat (length l).

(** The exceptions the module can end with. *)
Inductive exn : Type :=
| AttributeError (attribute : string)  (* [None.get_text] *)
| TypeError                            (* [None['href']] *)
| KeyError (key : string)              (* [tag['href']] without the attribute *)
| CollaboratorError (what : string).   (* raised inside a collaborator *)

End Py.

(* ================================================================== *)
(** ** The parsed document and the tree operations the module calls *)
(* ================================================================== *)

Module Soup.

(** A parsed node: a text node or a tag with its name, its attributes
    other than [class], the values of its [class] attribute and its
    children. *)
Inductive node : Type :=
| NavigableString (s : string)
| Tag (name : string) (attrs : list (string * string))
      (class_ : list string) (contents : list node).

(** A node handed out by a search keeps its place in the tree: the
    siblings that follow it are what [find_next_sibling] walks. *)
Record element : Type := Element {
  el_node : node;
  next_siblings : list node
}.

(** [tag.descendants], in document order. *)
Fixpoint descendants (n : node) : list element :=
  match n with
  | NavigableString _ => []
  | Tag _ _ _ cs =>
      (fix walk (l : list node) : list element :=
         match l with
         | [] => []
         | c :: rest => Element c rest :: descendants c ++ walk rest
         end) cs
  end.

(** [tag.string]: the single text below a chain of only children. *)
Fixpoint string_of (n : node) : option string :=
  match n with
  | NavigableString s => Some s
  | Tag _ _ _ [c] => string_of c
  | Tag _ _ _ _ => None
  end.

(** All text nodes below a node, in document order. *)
Fixpoint strings (n : node) : list string :=
  match n with
  | NavigableString s => [s]
  | Tag _ _ _ cs => flat_map strings cs
  end.

Definition nonempty (s : string) : bool :=
  match s with EmptyString => false | _ => true end.

(** [node.get_text(strip=True)]: every text node is stripped, the empty
    ones are dropped and the rest is joined without a separator. *)
Definition get_text_strip (n : node) : string :=
  String.concat EmptyString (filter nonempty (map Py.strip (strings n))).

(** A [class_=c] filter matches one of the class values, or the whole
    attribute once its values are joined by single spaces. *)
Definition class_matches (classes : list string) (c : string) : bool :=
  existsb (String.eqb c) classes || String.eqb (String.concat " " classes) c.

Definition text_matches (text : option string) (n : node) : bool :=
  match text with
  | None => true
  | Some t =>
      match string_of n with
      | Some s => String.eqb s t
      | None => false
      end
  end.

Definition matches (name class_ : string) (text : option string)
           (n : node) : bool :=
  match n with
  | NavigableString _ => false
  | Tag nm _ cls _ =>
      String.eqb nm name && class_matches cls class_ && text_matches text n
  end.

(** [tag.find_all(name, class_=c, text=t)] *)
Definition find_all (root : node) (name class_ : string)
           (text : option string) : list element :=
  filter (fun e => matches name class_ text (el_node e)) (descendants root).

(** [tag.find(name, class_=c, text=t)]: the first match or [None]. *)
Definition find (root : node) (name class_ : string)
           (text : option string) : option element :=
  hd_error (find_all root name class_ text).

Definition has_name (name : string) (n : node) : bool :=
  match n with
  | NavigableString _ => false
  | Tag nm _ _ _ => String.eqb nm name
  end.

(** [el.find_next_sibling(name)]: the first later sibling that is a tag
    of that name, or [None]. *)
Definition find_next_sibling (e : element) (name : string) : option node :=
  List.find (has_name name) (next_siblings e).

Fixpoint assoc (key : string) (l : list (string * string)) : option string :=
  match l with
  | [] => None
  | (k, v) :: rest => if String.eqb k key then Some v else assoc key rest
  end.

(** [tag[key]] *)
Definition get_attr (n : node) (key : string) : option string :=
  match n with
  | NavigableString _ => None
  | Tag _ attrs _ _ => assoc key attrs
  end.

End Soup.

(* ================================================================== *)
(** ** The scraper *)
(* ================================================================== *)

Module StandOutSearcher.
Import Py Soup.

(** *** Values exchanged with the surrounding aggregator *)

(** [ScraperInput]: the scraper reads [results_wanted] only. *)
Record ScraperInput : Type := { results_wanted : Z }.

(** [JobPost], with the fields this module sets. A field that is not
    passed to the constructor is [None]. *)
Record JobPost : Type := {
  title : option string;
  company_name : option string;
  deadline : option string;
  job_url : option string;
  location : option string;
  address : option string;
  mode : option string;
  description : option string
}.

Record JobResponse : Type := { jobs : list JobPost }.

(** What [session.get] hands back. *)
Record Response : Type := { status_code : Z; text : string }.

(** *** Calls to the collaborators, in the order they are made *)

Inductive level : Type := Info | Warning | Error.

Inductive event : Type :=
| SessionGet (url : string)          (* [self.session.get(url)] *)
| FetchHtml (url : string)           (* [self.fetch_html(url)] *)
| Sleep (seconds : Z)                (* [time.sleep(seconds)] *)
| Log (lvl : level) (msg : string).  (* [logger.info/warning/error] *)

Inductive outcome (A : Type) : Type :=
| Return (a : A)
| Raise (e : exn)
| OutOfFuel.
Arguments Raise {A} e.
Arguments OutOfFuel {A}.

Definition base_url : string := "https://www.standoutsearch.com".
Definition delay : Z := 5.

Definition listing_url (page : Z) : string :=
  base_url ++ "/jobs?page=" ++ str_of_int page.

Definition title_class : string := "chakra-text css-134zrag".
Definition company_class : string := "chakra-text css-14pw5qv".
Definition deadline_class : string := "css-111tzkx".
Definition link_class : string := "chakra-link chakra-button css-19vrdtv".
Definition label_class : string := "chakra-text css-i3b6lo".

(** *** Counting calls in a trace *)

Definition is_session_get (e : event) : bool :=
  match e with SessionGet _ => true | _ => false end.

Definition is_fetch_html (e : event) : bool :=
  match e with FetchHtml _ => true | _ => false end.

Definition is_warning (e : event) : bool :=
  match e with Log Warning _ => true | _ => false end.

(** The listing pages requested, one [session.get] each. *)
Definition listing_fetches (calls : list event) : list event :=
  filter is_session_get calls.

(** The urls handed to [fetch_html], in call order. *)
Fixpoint detail_fetches (calls : list event) : list string :=
  match calls with
  | [] => []
  | FetchHtml url :: rest => url :: detail_fetches rest
  | _ :: rest => detail_fetches rest
  end.

(** A field that is [None] or a trimmed text. *)
Definition trimmed_field (field : option string) : Prop :=
  match field with
  | Some s => trimmed s
  | None => True
  end.

(** The text fields of a record, [job_url] apart, are trimmed. *)
Definition trimmed_post (post : JobPost) : Prop :=
  trimmed_field (title post)
  /\ trimmed_field (company_name post)
  /\ trimmed_field (deadline post)
  /\ trimmed_field (location post)
  /\ trimmed_field (address post)
  /\ trimmed_field (mode post)
  /\ trimmed_field (description post).

(** The seconds slept, in call order. *)
Fixpoint sleeps (calls : list event) : list Z :=
  match calls with
  | [] => []
  | Sleep seconds :: rest => seconds :: sleeps rest
  | _ :: rest => sleeps rest
  end.

(** The [job_url] of the records that have one, in order. *)
Definition urls_of (posts : list JobPost) : list string :=
  flat_map (fun post => match job_url post with
                        | Some url => [url]
                        | None => []
                        end) posts.

(** The calls of one round of the loop of [scrape] on a page that gave the
    records [posts]: the log line, the request for the page, one detail
    fetch per record, the pause. *)
Definition page_calls (page : Z) (posts : list JobPost) : list event :=
  Log Info ("StandOutSearch search page: " ++ str_of_int page)
  :: SessionGet (listing_url page)
  :: (map FetchHtml (urls_of posts) ++ [Sleep delay])%list.

Section Site.

(** The state of everything outside the process: what the site will
    answer next. *)
Variable World : Type.

(** [self.session.get(url)]: a response, or an exception. *)
Variable session_get : string -> World -> (exn + Response) * World.

(** [self.fetch_html(url)], inherited: the markup, or an exception. *)
Variable fetch_html : string -> World -> (exn + string) * World.

(** [BeautifulSoup(markup, 'html.parser')]: the document node. *)
Variable BeautifulSoup : string -> node.

(** *** The monad: world passing, exceptions, a trace of calls *)

Record run (A : Type) : Type := Run {
  result : outcome A;
  world_after : World;
  trace : list event
}.

Definition M (A : Type) : Type := World -> run A.

Definition ret {A : Type} (a : A) : M A :=
  fun w => Run (Return a) w [].

Definition raise {A : Type} (e : exn) : M A :=
  fun w => Run (Raise e) w [].

Definition out_of_fuel {A : Type} : M A :=
  fun w => Run OutOfFuel w [].

Definition bind {A B : Type} (m : M A) (k : A -> M B) : M B :=
  fun w =>
    let r := m w in
    match result r with
    | Return a =>
        let r' := k a (world_after r) in
        Run (result r') (world_after r') (trace r ++ trace r')
    | Raise e => Run (Raise e) (world_after r) (trace r)
    | OutOfFuel => Run OutOfFuel (world_after r) (trace r)
    end.

Definition emit (e : event) : M unit :=
  fun w => Run (Return tt) w [e].

Definition call {A : Type} (e : event)
           (f : World -> (exn + A) * World) : M A :=
  fun w =>
    match f w with
    | (inr a, w') => Run (Return a) w' [e]
    | (inl x, w') => Run (Raise x) w' [e]
    end.

Notation "x <- m ;; k" := (bind m (fun x => k))
  (at level 100, m at next level, right associativity).
Notation "m ;; k" := (bind m (fun _ => k))
  (at level 100, right associativity).

Definition get (url : string) : M Response :=
  call (SessionGet url) (session_get url).

Definition fetch (url : string) : M string :=
  call (FetchHtml url) (fetch_html url).

Definition logger (lvl : level) (msg : string) : M unit :=
  emit (Log lvl msg).

Definition sleep (seconds : Z) : M unit := emit (Sleep seconds).

(** *** [_parse_job_details] *)

(** One labelled field:
    [elem = soup.find('p', class_=..., text=label)] and then
    [elem.find_next_sibling(tag).get_text(strip=True) if elem else None].
    A label without such a sibling calls [get_text] on [None]. *)
Definition labelled (soup : node) (label tag : string)
  : M (option string) :=
  match find soup "p" label_class (Some label) with
  | Some elem =>
      match find_next_sibling elem tag with
      | Some sibling => ret (Some (get_text_strip sibling))
      | None => raise (AttributeError "get_text")
      end
  | None => ret None
  end.

Definition _parse_job_details (html : string) : M JobPost :=
  let soup := BeautifulSoup html in
  location <- labelled soup "Location:" "span" ;;
  address <- labelled soup "Address:" "p" ;;
  mode <- labelled soup "Mode:" "span" ;;
  description <- labelled soup "Description:" "p" ;;
  ret {| title := None; company_name := None; deadline := None;
         job_url := None;
         location := location; address := address;
         mode := mode; description := description |}.

(** *** [_process_job] *)

(** [container.find('p', class_=c).get_text(strip=True)] *)
Definition required_text (container : node) (class_ : string)
  : M string :=
  match find container "p" class_ None with
  | Some elem => ret (get_text_strip (el_node elem))
  | None => raise (AttributeError "get_text")
  end.

(** [container.find('a', class_=...)['href']] *)
Definition required_href (container : node) : M string :=
  match find container "a" link_class None with
  | Some a =>
      match get_attr (el_node a) "href" with
      | Some href => ret href
      | None => raise (KeyError "href")
      end
  | None => raise TypeError
  end.

Definition optional_deadline (container : node) : option string :=
  match find container "span" deadline_class None with
  | Some deadline_elem => Some (get_text_strip (el_node deadline_elem))
  | None => None
  end.

Definition _process_job (container : node) : M (option JobPost) :=
  title <- required_text container title_class ;;
  company_name <- required_text container company_class ;;
  let deadline := optional_deadline container in
  job_url <- required_href container ;;
  details_html <- fetch job_url ;;
  job_details <- _parse_job_details details_html ;;
  ret (Some {| title := Some title;
               company_name := Some company_name;
               deadline := deadline;
               job_url := Some job_url;
               location := location job_details;
               address := address job_details;
               mode := mode job_details;
               description := description job_details |}).

(** *** [_find_jobs_in_page] *)

(** The [for container in job_containers] loop and its [jobs_list]. The
    test [if job_post:] holds for every [JobPost] object and fails for
    [None]. *)
Fixpoint for_containers (job_containers : list element)
         (jobs_list : list JobPost) : M (list JobPost) :=
  match job_containers with
  | [] => ret jobs_list
  | container :: rest =>
      job_post <- _process_job (el_node container) ;;
      match job_post with
      | Some post => for_containers rest (jobs_list ++ [post])
      | None => for_containers rest jobs_list
      end
  end.

Definition job_containers (soup : node) : list element :=
  find_all soup "div" "chakra-box" None.

Definition _find_jobs_in_page (scraper_input : ScraperInput) (page : Z)
  : M (list JobPost) :=
  let jobs_list := [] in
  let url := listing_url page in
  res <- get url ;;
  if negb (status_code res =? 200) then
    logger Error ("Failed to fetch page " ++ str_of_int page ++ ": "
                  ++ str_of_int (status_code res)) ;;
    ret jobs_list
  else
    let soup := BeautifulSoup (text res) in
    for_containers (job_containers soup) jobs_list.

(** *** [scrape] *)

(** The [while True] loop; [fuel] bounds the number of iterations. *)
Fixpoint scrape_loop (fuel : nat) (scraper_input : ScraperInput)
         (job_list : list JobPost) (page : Z) : M (list JobPost) :=
  match fuel with
  | O => out_of_fuel
  | S fuel' =>
      if len job_list >=? results_wanted scraper_input then ret job_list
      else
        logger Info ("StandOutSearch search page: " ++ str_of_int page) ;;
        jobs_on_page <- _find_jobs_in_page scraper_input page ;;
        match jobs_on_page with
        | [] => ret job_list
        | _ :: _ =>
            sleep delay ;;
            scrape_loop fuel' scraper_input (job_list ++ jobs_on_page)
                        (page + 1)
        end
  end.

Definition scrape (fuel : nat) (scraper_input : ScraperInput)
  : M JobResponse :=
  job_list <- scrape_loop fuel scraper_input [] 1 ;;
  ret {| jobs := slice_to job_list (results_wanted scraper_input) |}.

(** *** Observations on runs, used to state the properties *)

(** A run with some calls made before it. *)
Definition after_calls {A : Type} (calls : list event) (r : run A) : run A :=
  Run (result r) (world_after r) (calls ++ trace r).

(** The variables of the [while] loop of [scrape], and the world. *)
Record loop_state : Type := LoopState {
  st_jobs : list JobPost;
  st_page : Z;
  st_world : World
}.

Definition initial (w : World) : loop_state := LoopState [] 1 w.

(** One listing page that was fetched and sent the loop round again. *)
Record visit : Type := Visit {
  v_page : Z;
  v_world : World;          (* the world when the page was requested *)
  v_jobs : list JobPost     (* what [_find_jobs_in_page] returned *)
}.

Definition collected (visits : list visit) : list JobPost :=
  concat (map v_jobs visits).

(** The calls of one full iteration of the loop on a page with jobs. *)
Definition iteration_calls (scraper_input : ScraperInput) (s : loop_state)
  : list event :=
  Log Info ("StandOutSearch search page: " ++ str_of_int (st_page s))
  :: trace (_find_jobs_in_page scraper_input (st_page s) (st_world s))
  ++ [Sleep delay].

(** [loops input s visits calls s']: from the loop state [s], the loop
    goes round once per element of [visits], making [calls], and is then
    at its head again in state [s']. *)
Inductive loops (scraper_input : ScraperInput)
  : loop_state -> list visit -> list event -> loop_state -> Prop :=
| loops_here : forall s, loops scraper_input s [] [] s
| loops_round : forall s jobs visits calls s',
    len (st_jobs s) < results_wanted scraper_input ->
    result (_find_jobs_in_page scraper_input (st_page s) (st_world s))
      = Return jobs ->
    jobs <> [] ->
    loops scraper_input
          (LoopState (st_jobs s ++ jobs) (st_page s + 1)
             (world_after
                (_find_jobs_in_page scraper_input (st_page s) (st_world s))))
          visits calls s' ->
    loops scraper_input s
          (Visit (st_page s) (st_world s) jobs :: visits)
          (iteration_calls scraper_input s ++ calls) s'.

(** How a record is read off a job container of a listing page. *)
Definition from_container (container : element) (post : JobPost) : Prop :=
  (exists e, find (el_node container) "p" title_class None = Some e
             /\ title post = Some (get_text_strip (el_node e)))
  /\ (exists e, find (el_node container) "p" company_class None = Some e
                /\ company_name post = Some (get_text_strip (el_node e)))
  /\ deadline post = optional_deadline (el_node container)
  /\ (exists a, find (el_node container) "a" link_class None = Some a
                /\ job_url post = get_attr (el_node a) "href"
                /\ job_url post <> None).

(** The listing page requested in world [w] answers 200 and its job
    containers, in document order, are [containers]. *)
Definition listing_containers (page : Z) (w : World)
           (containers : list element) : Prop :=
  exists res w1,
    session_get (listing_url page) w = (inr res, w1)
    /\ status_code res = 200
    /\ containers = job_containers (BeautifulSoup (text res)).

(** The href of the link of a container, when it has one. *)
Definition container_href (container : element) : option string :=
  match find (el_node container) "a" link_class None with
  | Some a => get_attr (el_node a) "href"
  | None => None
  end.

(** A container from which [_process_job] cannot read a mandatory field. *)
Definition lacks_mandatory (container : node) : bool :=
  match find container "p" title_class None,
        find container "p" company_class None,
        find container "a" link_class None with
  | Some _, Some _, Some a =>
      match get_attr (el_node a) "href" with
      | Some _ => false
      | None => true
      end
  | _, _, _ => true
  end.

(** The record [_process_job] builds from the summary fields and the
    parsed details. *)
Definition merged (t c : string) (d : option string) (h : string)
           (details : JobPost) : JobPost :=
  {| title := Some t; company_name := Some c; deadline := d;
     job_url := Some h;
     location := location details; address := address details;
     mode := mode details; description := description details |}.

Definition mandatory_exn (e : exn) : Prop :=
  e = AttributeError "get_text" \/ e = TypeError \/ e = KeyError "href".

(** A computation that touches neither the world nor the collaborators
    and whose result does not depend on the world. *)
Definition pure {A : Type} (m : M A) : Prop :=
  forall w, world_after (m w) = w /\ trace (m w) = []
            /\ result (m w) <> OutOfFuel
            /\ forall w', result (m w') = result (m w).

(** What a detail field must be, given the document: the stripped text of
    the next sibling [tag] of the [p] whose text is exactly [label], and
    [None] when the document has no such [p]. *)
Definition field_from_label (soup : node) (label tag : string)
           (value : option string) : Prop :=
  match find soup "p" label_class (Some label) with
  | Some elem =>
      exists sibling, find_next_sibling elem tag = Some sibling
                      /\ value = Some (get_text_strip sibling)
  | None => value = None
  end.

(** The label is in the document but no later sibling is a [tag]. *)
Definition dangling_label (soup : node) (label tag : string) : bool :=
  match find soup "p" label_class (Some label) with
  | Some elem =>
      match find_next_sibling elem tag with
      | Some _ => false
      | None => true
      end
  | None => false
  end.

(** None of the four labels is in the document. *)
Definition no_label (soup : node) : Prop :=
  find soup "p" label_class (Some "Location:") = None
  /\ find soup "p" label_class (Some "Address:") = None
  /\ find soup "p" label_class (Some "Mode:") = None
  /\ find soup "p" label_class (Some "Description:") = None.

(** A 2xx status. *)
Definition is_success (status : Z) : bool :=
  (200 <=? status) && (status <? 300).

(** The listing page requested in world [w] fails: the transport raises,
    the status is not a success, or the page has no job container. *)
Definition listing_fails (page : Z) (w : World) : Prop :=
  match session_get (listing_url page) w with
  | (inl _, _) => True
  | (inr res, _) =>
      is_success (status_code res) = false
      \/ job_containers (BeautifulSoup (text res)) = []
  end.

(** The reading of the error policy under which every failure of a listing
    page, an exception of the transport included, ends the pagination and
    has [scrape] return what the earlier pages gave. *)
Definition every_listing_failure_ends_pagination : Prop :=
  forall (scraper_input : ScraperInput) visits calls s (fuel : nat) w0,
    loops scraper_input (initial w0) visits calls s ->
    len (collected visits) < results_wanted scraper_input ->
    (length visits < fuel)%nat ->
    listing_fails (st_page s) (st_world s) ->
    result (scrape fuel scraper_input w0)
    = Return {| jobs := collected visits |}.

(** The reading of the extraction policy under which a container that
    lacks a mandatory field is skipped with a warning and the page is
    processed to its end. *)
Definition incomplete_container_is_skipped : Prop :=
  forall (scraper_input : ScraperInput) (page : Z) (w : World) cs,
    listing_containers page w cs ->
    existsb (fun c => lacks_mandatory (el_node c)) cs = true ->
    exists jobs,
      result (_find_jobs_in_page scraper_input page w) = Return jobs
      /\ existsb is_warning
                 (trace (_find_jobs_in_page scraper_input page w)) = true.

(** One of the four labels is in the document without the sibling that
    [_parse_job_details] reads after it. *)
Definition some_dangling_label (soup : node) : bool :=
  dangling_label soup "Location:" "span"
  || dangling_label soup "Address:" "p"
  || dangling_label soup "Mode:" "span"
  || dangling_label soup "Description:" "p".

End Site.

(** *** The inherited [fetch_html] *)

Definition is_absolute (url : string) : bool :=
  String.prefix "http://" url || String.prefix "https://" url.

Definition is_site_relative (url : string) : bool := String.prefix "/" url.

(** Modelled from the spec: the resolution of a detail url against the base
    host, which [fetch_html] is to perform; [fetch_html] is inherited from
    [Scraper], whose source is not part of the module. The spec (6) asks to
    "resolve relative URLs against the base host": an absolute url is kept,
    a site-relative one is appended to the host, any other one is taken
    relative to the root of the host. *)
Definition resolve_url (url : string) : string :=
  if is_absolute url then url
  else if is_site_relative url then base_url ++ url
  else base_url ++ "/" ++ url.

(** Modelled from the spec: [fetch_html], inherited from [Scraper], whose
    source is not part of the module. The spec (4.3) has it perform "one
    GET against the absolute-or-resolved detail URL" and hand the body to
    the parser; a failure of the GET propagates. *)
Definition fetch_html_spec {World : Type}
           (session_get : string -> World -> (exn + Response) * World)
           (url : string) (w : World) : (exn + string) * World :=
  match session_get (resolve_url url) w with
  | (inr res, w') => (inr (text res), w')
  | (inl e, w') => (inl e, w')
  end.

End StandOutSearcher.

(* ================================================================== *)
(** ** Scripted sites, used to run the scraper on concrete pages *)
(* ================================================================== *)

Module Fixtures.
Import Py Soup StandOutSearcher.

(** A scripted site: what each listing url and each detail url answers,
    and the tree the parser builds for each markup it serves. The world
    is the list of the urls requested so far. *)
Record site : Type := Site {
  listings : list (string * (exn + Response));
  details : list (string * (exn + string));
  documents : list (string * node)
}.

Fixpoint lookup {A : Type} (key : string) (table : list (string * A))
  : option A :=
  match table with
  | [] => None
  | (k, v) :: rest => if String.eqb k key then Some v else lookup key rest
  end.

Definition site_get (s : site) (url : string) (requests : list string)
  : (exn + Response) * list string :=
  match lookup url (listings s) with
  | Some answer => (answer, (requests ++ [url])%list)
  | None => (inr {| status_code := 404; text := EmptyString |},
             (requests ++ [url])%list)
  end.

Definition site_fetch (s : site) (url : string) (requests : list string)
  : (exn + string) * list string :=
  match lookup url (details s) with
  | Some answer => (answer, (requests ++ [url])%list)
  | None => (inl (CollaboratorError "no such page"), (requests ++ [url])%list)
  end.

Definition site_parse (s : site) (markup : string) : node :=
  match lookup markup (documents s) with
  | Some doc => doc
  | None => Tag "[document]" [] [] []
  end.

Definition run_scrape (s : site) (fuel : nat) (results_wanted : Z)
  : run (list string) JobResponse :=
  scrape (site_get s) (site_fetch s) (site_parse s) fuel
         {| results_wanted := results_wanted |} [].

(** *** Markup *)

Definition document (contents : list node) : node :=
  Tag "[document]" [] [] contents.

Definition p_text (classes : list string) (s : string) : node :=
  Tag "p" [] classes [NavigableString s].

Definition apply_link (attrs : list (string * string)) : node :=
  Tag "a" attrs ["chakra-link"; "chakra-button"; "css-19vrdtv"]
      [NavigableString "Apply"].

(** A complete job card. *)
Definition card (job company href : string) : node :=
  Tag "div" [] ["chakra-box"]
      [ p_text ["chakra-text"; "css-134zrag"] job;
        p_text ["chakra-text"; "css-14pw5qv"] company;
        apply_link [("href", href)] ].

(** A job card with a deadline. *)
Definition card_with_deadline (job company due href : string) : node :=
  Tag "div" [] ["chakra-box"]
      [ p_text ["chakra-text"; "css-134zrag"] job;
        p_text ["chakra-text"; "css-14pw5qv"] company;
        Tag "span" [] ["css-111tzkx"] [NavigableString due];
        apply_link [("href", href)] ].

(** A job card without its title paragraph. *)
Definition card_without_title (company href : string) : node :=
  Tag "div" [] ["chakra-box"]
      [ p_text ["chakra-text"; "css-14pw5qv"] company;
        apply_link [("href", href)] ].

(** A job card without its company paragraph. *)
Definition card_without_company (job href : string) : node :=
  Tag "div" [] ["chakra-box"]
      [ p_text ["chakra-text"; "css-134zrag"] job;
        apply_link [("href", href)] ].

(** A job card without its link. *)
Definition card_without_link (job company : string) : node :=
  Tag "div" [] ["chakra-box"]
      [ p_text ["chakra-text"; "css-134zrag"] job;
        p_text ["chakra-text"; "css-14pw5qv"] company ].

(** A job card whose link has no [href]. *)
Definition card_without_href (job company : string) : node :=
  Tag "div" [] ["chakra-box"]
      [ p_text ["chakra-text"; "css-134zrag"] job;
        p_text ["chakra-text"; "css-14pw5qv"] company;
        apply_link [] ].

Definition label (s : string) : node :=
  p_text ["chakra-text"; "css-i3b6lo"] s.

Definition span (s : string) : node := Tag "span" [] [] [NavigableString s].

Definition para (s : string) : node := Tag "p" [] [] [NavigableString s].

(** A detail page with the four labelled fields. *)
Definition full_detail : node :=
  document
    [ Tag "div" [] []
          [ label "Location:"; span "  Boston, MA ";
            label "Mode:"; span "Hybrid" ];
      Tag "div" [] []
          [ label "Address:"; para "1 Main St";
            label "Description:"; para " Summer internship. " ] ].

(** A detail page with a location only. *)
Definition location_only_detail : node :=
  document [ Tag "div" [] [] [ label "Location:"; span "Remote" ] ].

(** A detail page without any label. *)
Definition bare_detail : node :=
  document [ Tag "h1" [] [] [NavigableString "Intern"] ].

(** A detail page whose location label is followed by no [span]. *)
Definition dangling_label_detail : node :=
  document [ Tag "div" [] [] [ label "Location:"; para "Boston" ] ].

(** A detail page whose location label is followed by a paragraph and only
    then by a [span]. *)
Definition distant_span_detail : node :=
  document
    [ Tag "div" [] []
          [ label "Location:"; para "see below"; span "Austin" ] ].

Definition ok (markup : string) : exn + Response :=
  inr {| status_code := 200; text := markup |}.

Definition page (n : Z) : string := listing_url n.

(** *** Sites *)

(** Three jobs on page 1, one on page 2, nothing on page 3. *)
Definition three_then_one : site :=
  {| listings :=
       [ (page 1, ok "listing 1"); (page 2, ok "listing 2");
         (page 3, ok "listing 3") ];
     details :=
       [ ("/jobs/a", inr "detail a"); ("/jobs/b", inr "detail b");
         ("https://www.standoutsearch.com/jobs/c", inr "detail c");
         ("/jobs/d", inr "detail d") ];
     documents :=
       [ ("listing 1",
          document
            [ card "Intern A" "Acme" "/jobs/a";
              card_with_deadline "Intern B" "Bolt" "May 1" "/jobs/b";
              card "Intern C" "Cyan"
                   "https://www.standoutsearch.com/jobs/c" ]);
         ("listing 2", document [ card "Intern D" "Dune" "/jobs/d" ]);
         ("listing 3", document [ para "No more jobs" ]);
         ("detail a", full_detail);
         ("detail b", location_only_detail);
         ("detail c", bare_detail);
         ("detail d", distant_span_detail) ] |}.

(** Page 1 has two jobs, page 2 answers 500. *)
Definition two_then_error : site :=
  {| listings :=
       [ (page 1, ok "listing 1");
         (page 2, inr {| status_code := 500; text := "oops" |});
         (page 3, ok "listing 3") ];
     details := [ ("/jobs/a", inr "detail a"); ("/jobs/b", inr "detail b");
                  ("/jobs/e", inr "detail a") ];
     documents :=
       [ ("listing 1",
          document [ card "Intern A" "Acme" "/jobs/a";
                     card "Intern B" "Bolt" "/jobs/b" ]);
         ("listing 3", document [ card "Intern E" "Echo" "/jobs/e" ]);
         ("detail a", bare_detail);
         ("detail b", bare_detail) ] |}.

(** The request for page 1 fails in the transport. *)
Definition unreachable : site :=
  {| listings := [ (page 1, inl (CollaboratorError "ConnectionError")) ];
     details := [];
     documents := [] |}.

(** Page 1 has two jobs; the request for page 2 fails in the transport. *)
Definition two_then_unreachable : site :=
  {| listings :=
       [ (page 1, ok "listing 1");
         (page 2, inl (CollaboratorError "ConnectionError")) ];
     details := [ ("/jobs/a", inr "detail a"); ("/jobs/b", inr "detail b") ];
     documents :=
       [ ("listing 1",
          document [ card "Intern A" "Acme" "/jobs/a";
                     card "Intern B" "Bolt" "/jobs/b" ]);
         ("detail a", bare_detail);
         ("detail b", bare_detail) ] |}.

(** Page 1 has a complete card, a card without title, a complete card. *)
Definition one_card_without_title : site :=
  {| listings := [ (page 1, ok "listing 1") ];
     details := [ ("/jobs/a", inr "detail a"); ("/jobs/b", inr "detail b");
                  ("/jobs/c", inr "detail c") ];
     documents :=
       [ ("listing 1",
          document [ card "Intern A" "Acme" "/jobs/a";
                     card_without_title "Bolt" "/jobs/b";
                     card "Intern C" "Cyan" "/jobs/c" ]);
         ("detail a", bare_detail);
         ("detail b", bare_detail);
         ("detail c", bare_detail) ] |}.

(** A site whose detail pages are served by the session under their
    absolute urls; the first card links site-relative, the second
    absolute. *)
Definition absolute_details : site :=
  {| listings :=
       [ (page 1, ok "listing 1");
         ("https://www.standoutsearch.com/jobs/a", ok "detail a");
         ("https://www.standoutsearch.com/jobs/b", ok "detail b") ];
     details := [];
     documents :=
       [ ("listing 1",
          document
            [ card "Intern A" "Acme" "/jobs/a";
              card "Intern B" "Bolt"
                   "https://www.standoutsearch.com/jobs/b" ]);
         ("detail a", location_only_detail);
         ("detail b", bare_detail) ] |}.

(** *** Expected records *)

Definition summary_only (job company href : string) : JobPost :=
  {| title := Some job; company_name := Some company; deadline := None;
     job_url := Some href;
     location := None; address := None; mode := None;
     description := None |}.

Definition intern_a : JobPost :=
  {| title := Some "Intern A"; company_name := Some "Acme";
     deadline := None; job_url := Some "/jobs/a";
     location := Some "Boston, MA"; address := Some "1 Main St";
     mode := Some "Hybrid"; description := Some "Summer internship." |}.

Definition intern_b : JobPost :=
  {| title := Some "Intern B"; company_name := Some "Bolt";
     deadline := Some "May 1"; job_url := Some "/jobs/b";
     location := Some "Remote"; address := None; mode := None;
     description := None |}.

Definition intern_c : JobPost :=
  summary_only "Intern C" "Cyan" "https://www.standoutsearch.com/jobs/c".

Definition intern_d : JobPost :=
  {| title := Some "Intern D"; company_name := Some "Dune";
     deadline := None; job_url := Some "/jobs/d";
     location := Some "Austin"; address := None; mode := None;
     description := None |}.

(** Page 1 has three complete cards; the detail page of the second one is
    not served. *)
Definition missing_detail : site :=
  {| listings := [ (page 1, ok "listing 1") ];
     details := [ ("/jobs/a", inr "detail a"); ("/jobs/c", inr "detail c") ];
     documents :=
       [ ("listing 1",
          document [ card "Intern A" "Acme" "/jobs/a";
                     card "Intern Z" "Zed" "/jobs/z";
                     card "Intern C" "Cyan" "/jobs/c" ]);
         ("detail a", bare_detail);
         ("detail c", bare_detail) ] |}.

(** A card that holds another card after its own fields. *)
Definition outer_card : node :=
  Tag "div" [] ["chakra-box"]
      [ p_text ["chakra-text"; "css-134zrag"] "Outer";
        p_text ["chakra-text"; "css-14pw5qv"] "Acme";
        apply_link [("href", "/jobs/outer")];
        card "Inner" "Bolt" "/jobs/inner" ].

Definition nested_cards : node := document [ outer_card ].

End Fixtures.


(* ================================================================== *)
(** ** Properties *)
(* ================================================================== *)

Import Py Soup StandOutSearcher.

Section Properties.

Local Open Scope list_scope.

Variable World : Type.
Variable session_get : string -> World -> (exn + Response) * World.
Variable fetch_html : string -> World -> (exn + string) * World.
Variable BeautifulSoup : string -> node.

Local Abbreviation parse_details := (@_parse_job_details World BeautifulSoup).
Local Abbreviation process_job := (_process_job fetch_html BeautifulSoup).
Local Abbreviation containers_loop := (for_containers fetch_html BeautifulSoup).
Local Abbreviation find_jobs :=
  (_find_jobs_in_page session_get fetch_html BeautifulSoup).
Local Abbreviation loop := (scrape_loop session_get fetch_html BeautifulSoup).
Local Abbreviation scrape_site := (scrape session_get fetch_html BeautifulSoup).
Local Abbreviation rounds := (loops session_get fetch_html BeautifulSoup).

(** *** The monad *)

Lemma after_calls_nil (A : Type) (r : run World A) : after_calls [] r = r.
Proof. destruct r; reflexivity. Qed.

Lemma after_calls_app (A : Type) (c1 c2 : list event) (r : run World A) :
  after_calls c1 (after_calls c2 r) = after_calls (c1 ++ c2) r.
Proof. unfold after_calls; simpl. now rewrite app_assoc. Qed.

Lemma bind_return (A B : Type) (m : M World A) (k : A -> M World B) w a :
  result (m w) = Return a ->
  bind m k w = after_calls (trace (m w)) (k a (world_after (m w))).
Proof. intros H. unfold bind, after_calls. now rewrite H. Qed.

Lemma bind_raise (A B : Type) (m : M World A) (k : A -> M World B) w e :
  result (m w) = Raise e ->
  bind m k w = Run (Raise e) (world_after (m w)) (trace (m w)).
Proof. intros H. unfold bind. now rewrite H. Qed.

Lemma bind_out_of_fuel (A B : Type) (m : M World A) (k : A -> M World B) w :
  result (m w) = OutOfFuel ->
  bind m k w = Run OutOfFuel (world_after (m w)) (trace (m w)).
Proof. intros H. unfold bind. now rewrite H. Qed.

Lemma pure_ret (A : Type) (a : A) : pure (@ret World A a).
Proof. intros w. cbn. repeat split; congruence. Qed.

Lemma pure_raise (A : Type) (e : exn) : pure (@raise World A e).
Proof. intros w. cbn. repeat split; congruence. Qed.

Lemma pure_bind (A B : Type) (m : M World A) (k : A -> M World B) :
  pure m -> (forall a, pure (k a)) -> pure (bind m k).
Proof.
  intros Hm Hk w. destruct (Hm w) as (Hw & Ht & Hf & Hr).
  assert (Hshape : forall w0,
             bind m k w0 =
             match result (m w) with
             | Return a => k a w0
             | Raise e => Run (Raise e) w0 []
             | OutOfFuel => Run OutOfFuel w0 []
             end).
  { intros w0. destruct (Hm w0) as (Hw0 & Ht0 & _ & _).
    unfold bind. rewrite (Hr w0), Hw0, Ht0.
    destruct (result (m w)); try reflexivity.
    cbn. now destruct (k a w0). }
  rewrite Hshape.
  destruct (result (m w)) as [a | e | ] eqn:E.
  - destruct (Hk a w) as (Hw1 & Ht1 & Hf1 & Hr1).
    repeat split; auto. intros w'. rewrite Hshape. apply Hr1.
  - cbn. repeat split; try congruence. intros w'. now rewrite Hshape.
  - congruence.
Qed.

Lemma pure_run (A : Type) (m : M World A) w :
  pure m -> m w = Run (result (m w)) w [].
Proof.
  intros H. destruct (H w) as (Hw & Ht & _).
  destruct (m w) as [r w1 t]; cbn in *. congruence.
Qed.

Lemma bind_emit (B : Type) (e : event) (k : unit -> M World B) w :
  bind (emit e) k w = after_calls [e] (k tt w).
Proof. reflexivity. Qed.

(** *** [_parse_job_details] *)

Lemma pure_labelled soup label tag : pure (@labelled World soup label tag).
Proof.
  unfold labelled.
  destruct (find soup "p" label_class (Some label)) as [elem | ].
  - destruct (find_next_sibling elem tag); [apply pure_ret | apply pure_raise].
  - apply pure_ret.
Qed.

Lemma pure_parse_job_details html : pure (parse_details html).
Proof.
  unfold _parse_job_details.
  repeat (apply pure_bind; [apply pure_labelled | intros ?]).
  apply pure_ret.
Qed.

(** C4. For every detail-page markup, [_parse_job_details] makes no call and
    leaves the world alone, and each of the four detail fields of the value
    it returns is the stripped text of the sibling ([span] for location and
    mode, [p] for address and description) that follows the [p] whose text
    is exactly the label, and [None] when the document has no such label.
    It never fails on an absent label: when it raises, some label is in the
    document without such a sibling after it. *)
Theorem parse_job_details_fields (html : string) (w : World) :
  world_after (parse_details html w) = w
  /\ trace (parse_details html w) = []
  /\ match result (parse_details html w) with
     | Return d =>
         field_from_label (BeautifulSoup html) "Location:" "span" (location d)
         /\ field_from_label (BeautifulSoup html) "Address:" "p" (address d)
         /\ field_from_label (BeautifulSoup html) "Mode:" "span" (mode d)
         /\ field_from_label (BeautifulSoup html) "Description:" "p"
                             (description d)
     | Raise e =>
         e = AttributeError "get_text"
         /\ (dangling_label (BeautifulSoup html) "Location:" "span"
             || dangling_label (BeautifulSoup html) "Address:" "p"
             || dangling_label (BeautifulSoup html) "Mode:" "span"
             || dangling_label (BeautifulSoup html) "Description:" "p") = true
     | OutOfFuel => False
     end.
Proof.
  destruct (pure_parse_job_details html w) as (Hw & Ht & _).
  split; [exact Hw | split; [exact Ht | ]].
  unfold _parse_job_details, field_from_label, dangling_label, bind, labelled.
  set (soup := BeautifulSoup html).
  destruct (find soup "p" label_class (Some "Location:")) as [l | ];
    [destruct (find_next_sibling l "span") as [ls | ] | ]; cbn;
    try (split; [reflexivity | reflexivity]);
  (destruct (find soup "p" label_class (Some "Address:")) as [a | ];
    [destruct (find_next_sibling a "p") as [asib | ] | ]; cbn;
    try (split; [reflexivity | now rewrite ?orb_true_r]);
  (destruct (find soup "p" label_class (Some "Mode:")) as [m | ];
    [destruct (find_next_sibling m "span") as [ms | ] | ]; cbn;
    try (split; [reflexivity | now rewrite ?orb_true_r]);
  (destruct (find soup "p" label_class (Some "Description:")) as [d | ];
    [destruct (find_next_sibling d "p") as [ds | ] | ]; cbn;
    try (split; [reflexivity | now rewrite ?orb_true_r]);
    repeat split; eauto))).
Qed.

(** *** [_process_job] *)

Lemma process_job_incomplete (c : node) (w : World) :
  lacks_mandatory c = true ->
  exists e, process_job c w = Run (Raise e) w [] /\ mandatory_exn e.
Proof.
  unfold lacks_mandatory, _process_job, required_text, required_href, bind,
    mandatory_exn.
  destruct (find c "p" title_class None) as [te | ]; cbn;
    [ | intros _; eauto].
  destruct (find c "p" company_class None) as [ce | ]; cbn;
    [ | intros _; eauto].
  destruct (find c "a" link_class None) as [a | ]; cbn;
    [ | intros _; eauto].
  destruct (get_attr (el_node a) "href") as [h | ]; cbn;
    [discriminate | intros _; eauto 6].
Qed.

Lemma process_job_complete (c : node) (w : World) :
  lacks_mandatory c = false ->
  exists te ce a h,
    find c "p" title_class None = Some te
    /\ find c "p" company_class None = Some ce
    /\ find c "a" link_class None = Some a
    /\ get_attr (el_node a) "href" = Some h
    /\ process_job c w =
       after_calls [FetchHtml h]
         match fetch_html h w with
         | (inl e, w') => Run (Raise e) w' []
         | (inr html, w') =>
             match result (parse_details html w') with
             | Return details =>
                 Run (Return
                        (Some (merged (get_text_strip (el_node te))
                                      (get_text_strip (el_node ce))
                                      (optional_deadline c) h details)))
                     w' []
             | Raise e => Run (Raise e) w' []
             | OutOfFuel => Run OutOfFuel w' []
             end
         end.
Proof.
  unfold lacks_mandatory, _process_job, required_text, required_href.
  destruct (find c "p" title_class None) as [te | ]; [ | discriminate].
  destruct (find c "p" company_class None) as [ce | ]; [ | discriminate].
  destruct (find c "a" link_class None) as [a | ]; [ | discriminate].
  destruct (get_attr (el_node a) "href") as [h | ] eqn:Hh; [ | discriminate].
  intros _. exists te, ce, a, h. do 3 (split; [reflexivity | ]).
  split; [exact Hh | ].
  unfold bind, fetch, call, after_calls; cbn.
  destruct (fetch_html h w) as [[e | html] w']; cbn; [reflexivity | ].
  destruct (pure_parse_job_details html w') as (Hw & Ht & _).
  rewrite Hw, Ht.
  destruct (result (parse_details html w')); reflexivity.
Qed.

Lemma process_job_never_out_of_fuel (c : node) (w : World) :
  result (process_job c w) <> OutOfFuel.
Proof.
  destruct (lacks_mandatory c) eqn:E.
  - destruct (process_job_incomplete c w E) as (e & -> & _). discriminate.
  - destruct (process_job_complete c w E) as (te & ce & a & h & _ & _ & _ & _ & ->).
    destruct (fetch_html h w) as [[e | html] w']; cbn; [discriminate | ].
    destruct (pure_parse_job_details html w') as (_ & _ & Hf & _).
    destruct (result (parse_details html w')); cbn; congruence.
Qed.

Lemma process_job_returns (c : element) (w : World) (o : option JobPost) :
  result (process_job (el_node c) w) = Return o ->
  exists post h,
    o = Some post
    /\ from_container c post
    /\ container_href c = Some h
    /\ trace (process_job (el_node c) w) = [FetchHtml h].
Proof.
  destruct (lacks_mandatory (el_node c)) eqn:E.
  - destruct (process_job_incomplete (el_node c) w E) as (e & -> & _).
    discriminate.
  - destruct (process_job_complete (el_node c) w E)
      as (te & ce & a & h & Ht & Hc & Ha & Hh & ->).
    destruct (fetch_html h w) as [[e | html] w']; cbn; [discriminate | ].
    destruct (result (parse_details html w')) as [d | e | ]; cbn;
      try discriminate.
    intros [= <-]. eexists; exists h. split; [reflexivity | ].
    split; [ | split; [ | reflexivity]].
    + unfold from_container, merged; cbn. repeat split.
      * exists te; auto.
      * exists ce; auto.
      * exists a. rewrite Hh. repeat split; auto. discriminate.
    + unfold container_href. now rewrite Ha.
Qed.

Lemma process_job_calls (c : node) (w : World) :
  trace (process_job c w)
  = map FetchHtml (detail_fetches (trace (process_job c w))).
Proof.
  destruct (lacks_mandatory c) eqn:E.
  - destruct (process_job_incomplete c w E) as (e & -> & _). reflexivity.
  - destruct (process_job_complete c w E)
      as (te & ce & a & h & _ & _ & _ & _ & ->).
    destruct (fetch_html h w) as [[e | html] w']; cbn; [reflexivity | ].
    destruct (result (parse_details html w')); reflexivity.
Qed.

(** *** Traces *)

Lemma detail_fetches_app (c1 c2 : list event) :
  detail_fetches (c1 ++ c2) = (detail_fetches c1 ++ detail_fetches c2)%list.
Proof.
  induction c1 as [ | e c1 IH]; [reflexivity | ].
  destruct e; cbn; now rewrite ?IH.
Qed.

Lemma detail_fetches_map (urls : list string) :
  detail_fetches (map FetchHtml urls) = urls.
Proof. induction urls; cbn; congruence. Qed.

Lemma listing_fetches_app (c1 c2 : list event) :
  listing_fetches (c1 ++ c2) = (listing_fetches c1 ++ listing_fetches c2)%list.
Proof. unfold listing_fetches. apply filter_app. Qed.

Lemma listing_fetches_details (urls : list string) :
  listing_fetches (map FetchHtml urls) = [].
Proof. induction urls; cbn; auto. Qed.

Lemma no_warning_details (urls : list string) :
  existsb is_warning (map FetchHtml urls) = false.
Proof. induction urls; cbn; auto. Qed.

(** *** The loop over the containers of a page *)

Lemma for_containers_cons (c : element) (cs : list element)
      (acc : list JobPost) (w : World) :
  containers_loop (c :: cs) acc w =
  match result (process_job (el_node c) w) with
  | Return (Some post) =>
      after_calls (trace (process_job (el_node c) w))
        (containers_loop cs (acc ++ [post])
           (world_after (process_job (el_node c) w)))
  | Return None =>
      after_calls (trace (process_job (el_node c) w))
        (containers_loop cs acc (world_after (process_job (el_node c) w)))
  | Raise e =>
      Run (Raise e) (world_after (process_job (el_node c) w))
          (trace (process_job (el_node c) w))
  | OutOfFuel =>
      Run OutOfFuel (world_after (process_job (el_node c) w))
          (trace (process_job (el_node c) w))
  end.
Proof.
  cbn [for_containers]. unfold bind, after_calls.
  destruct (result (process_job (el_node c) w)) as [[post | ] | e | ];
    reflexivity.
Qed.

Lemma for_containers_calls (cs : list element) :
  forall (acc : list JobPost) (w : World),
    trace (containers_loop cs acc w)
    = map FetchHtml (detail_fetches (trace (containers_loop cs acc w)))
    /\ result (containers_loop cs acc w) <> OutOfFuel.
Proof.
  induction cs as [ | c cs IH]; intros acc w.
  - cbn. split; [reflexivity | discriminate].
  - rewrite for_containers_cons.
    pose proof (process_job_calls (el_node c) w) as Hc.
    pose proof (process_job_never_out_of_fuel (el_node c) w) as Hf.
    destruct (result (process_job (el_node c) w)) as [[post | ] | e | ];
      cbn [after_calls trace result];
      try (split; [exact Hc | discriminate]); try congruence.
    + destruct (IH (acc ++ [post])
                  (world_after (process_job (el_node c) w))) as (Ht & Hr).
      split; [ | exact Hr].
      rewrite detail_fetches_app, map_app, <- Hc, <- Ht. reflexivity.
    + destruct (IH acc (world_after (process_job (el_node c) w)))
        as (Ht & Hr).
      split; [ | exact Hr].
      rewrite detail_fetches_app, map_app, <- Hc, <- Ht. reflexivity.
Qed.

Lemma for_containers_returns (cs : list element) :
  forall (acc jobs : list JobPost) (w : World),
    result (containers_loop cs acc w) = Return jobs ->
    exists new,
      jobs = (acc ++ new)%list
      /\ Forall2 from_container cs new
      /\ map container_href cs
         = map Some (detail_fetches (trace (containers_loop cs acc w))).
Proof.
  induction cs as [ | c cs IH]; intros acc jobs w.
  - cbn. intros [= <-]. exists []. rewrite app_nil_r. auto.
  - rewrite for_containers_cons.
    destruct (result (process_job (el_node c) w)) as [o | e | ] eqn:E;
      try discriminate.
    destruct (process_job_returns c w E) as (post & h & -> & Hfrom & Hh & Ht).
    cbn [after_calls result trace]. intros Hres.
    destruct (IH _ _ _ Hres) as (new & -> & Hall & Hrefs).
    exists (post :: new). rewrite <- app_assoc. split; [reflexivity | ].
    split; [now constructor | ].
    rewrite detail_fetches_app, Ht. cbn. now rewrite Hh, Hrefs.
Qed.

Lemma for_containers_incomplete (cs : list element) :
  forall (acc : list JobPost) (w : World),
    existsb (fun c => lacks_mandatory (el_node c)) cs = true ->
    exists e, result (containers_loop cs acc w) = Raise e.
Proof.
  induction cs as [ | c cs IH]; intros acc w; cbn [existsb];
    [discriminate | ].
  rewrite for_containers_cons.
  destruct (lacks_mandatory (el_node c)) eqn:E.
  - intros _. destruct (process_job_incomplete (el_node c) w E) as (e & -> & _).
    now exists e.
  - cbn [orb]. intros Hex.
    pose proof (process_job_never_out_of_fuel (el_node c) w) as Hf.
    destruct (result (process_job (el_node c) w)) as [[post | ] | e | ];
      cbn [after_calls result]; eauto; congruence.
Qed.

(** *** [_find_jobs_in_page] *)

Lemma find_jobs_unfold (input : ScraperInput) (page : Z) (w : World) :
  find_jobs input page w =
  match session_get (listing_url page) w with
  | (inl e, w1) => Run (Raise e) w1 [SessionGet (listing_url page)]
  | (inr res, w1) =>
      if status_code res =? 200 then
        after_calls [SessionGet (listing_url page)]
          (containers_loop (job_containers (BeautifulSoup (text res))) [] w1)
      else
        Run (Return []) w1
            [SessionGet (listing_url page);
             Log Error ("Failed to fetch page " ++ str_of_int page ++ ": "
                        ++ str_of_int (status_code res))%string]
  end.
Proof.
  unfold _find_jobs_in_page, bind, get, call, after_calls.
  destruct (session_get (listing_url page) w) as [[e | res] w1];
    cbn [result world_after trace]; [reflexivity | ].
  destruct (status_code res =? 200); cbn; reflexivity.
Qed.

Lemma find_jobs_never_out_of_fuel (input : ScraperInput) (page : Z) (w : World) :
  result (find_jobs input page w) <> OutOfFuel.
Proof.
  rewrite find_jobs_unfold.
  destruct (session_get (listing_url page) w) as [[e | res] w1];
    [discriminate | ].
  destruct (status_code res =? 200); [ | discriminate].
  apply for_containers_calls.
Qed.

(** Every call of [_find_jobs_in_page] requests its listing page once and
    makes no other request to the listing endpoint. *)
Lemma find_jobs_listing_fetches (input : ScraperInput) (page : Z) (w : World) :
  listing_fetches (trace (find_jobs input page w))
  = [SessionGet (listing_url page)].
Proof.
  rewrite find_jobs_unfold.
  destruct (session_get (listing_url page) w) as [[e | res] w1];
    [reflexivity | ].
  destruct (status_code res =? 200); [ | reflexivity].
  cbn [after_calls trace].
  destruct (for_containers_calls
              (job_containers (BeautifulSoup (text res))) [] w1) as (-> & _).
  rewrite listing_fetches_app, listing_fetches_details. reflexivity.
Qed.

Lemma find_jobs_no_warning (input : ScraperInput) (page : Z) (w : World) :
  existsb is_warning (trace (find_jobs input page w)) = false.
Proof.
  rewrite find_jobs_unfold.
  destruct (session_get (listing_url page) w) as [[e | res] w1];
    [reflexivity | ].
  destruct (status_code res =? 200); [ | reflexivity].
  cbn [after_calls trace].
  destruct (for_containers_calls
              (job_containers (BeautifulSoup (text res))) [] w1) as (-> & _).
  rewrite existsb_app, no_warning_details. reflexivity.
Qed.

Lemma find_jobs_get_raises (input : ScraperInput) (page : Z) (w w1 : World)
      (e : exn) :
  session_get (listing_url page) w = (inl e, w1) ->
  find_jobs input page w = Run (Raise e) w1 [SessionGet (listing_url page)].
Proof. intros H. now rewrite find_jobs_unfold, H. Qed.

Lemma find_jobs_not_200 (input : ScraperInput) (page : Z) (w w1 : World)
      (res : Response) :
  session_get (listing_url page) w = (inr res, w1) ->
  status_code res <> 200 ->
  find_jobs input page w =
  Run (Return []) w1
      [SessionGet (listing_url page);
       Log Error ("Failed to fetch page " ++ str_of_int page ++ ": "
                  ++ str_of_int (status_code res))%string].
Proof.
  intros H Hs. rewrite find_jobs_unfold, H.
  destruct (Z.eqb_spec (status_code res) 200); [contradiction | reflexivity].
Qed.

Lemma find_jobs_200 (input : ScraperInput) (page : Z) (w : World)
      (cs : list element) :
  listing_containers session_get BeautifulSoup page w cs ->
  exists w1,
    find_jobs input page w =
    after_calls [SessionGet (listing_url page)] (containers_loop cs [] w1).
Proof.
  intros (res & w1 & H & Hs & ->). exists w1.
  rewrite find_jobs_unfold, H, Hs. reflexivity.
Qed.

Lemma find_jobs_returns (input : ScraperInput) (page : Z) (w : World)
      (jobs : list JobPost) :
  result (find_jobs input page w) = Return jobs ->
  jobs <> [] ->
  exists cs,
    listing_containers session_get BeautifulSoup page w cs
    /\ Forall2 from_container cs jobs
    /\ map container_href cs
       = map Some (detail_fetches (trace (find_jobs input page w))).
Proof.
  rewrite find_jobs_unfold.
  destruct (session_get (listing_url page) w) as [[e | res] w1] eqn:Hget;
    [discriminate | ].
  destruct (Z.eqb_spec (status_code res) 200) as [Hs | Hs].
  - cbn [after_calls result trace]. intros Hres _.
    destruct (for_containers_returns _ _ _ Hres) as (new & -> & Hall & Hrefs).
    exists (job_containers (BeautifulSoup (text res))).
    split; [now exists res, w1 | ]. split; [exact Hall | exact Hrefs].
  - cbn. intros [= <-] Hne. now contradiction Hne.
Qed.

(** *** The [while] loop of [scrape] *)

Lemma loop_quota_met (fuel : nat) (input : ScraperInput)
      (job_list : list JobPost) (page : Z) (w : World) :
  results_wanted input <= len job_list ->
  loop (S fuel) input job_list page w = Run (Return job_list) w [].
Proof.
  intros H. cbn [scrape_loop].
  destruct (Z.geb_spec (len job_list) (results_wanted input)); [ | lia].
  reflexivity.
Qed.

Lemma loop_below_quota (fuel : nat) (input : ScraperInput)
      (job_list : list JobPost) (page : Z) (w : World) :
  len job_list < results_wanted input ->
  loop (S fuel) input job_list page w =
  match result (find_jobs input page w) with
  | Return [] =>
      Run (Return job_list) (world_after (find_jobs input page w))
          (Log Info ("StandOutSearch search page: " ++ str_of_int page)%string
           :: trace (find_jobs input page w))
  | Return (job :: jobs) =>
      after_calls (iteration_calls session_get fetch_html BeautifulSoup input
                     (LoopState job_list page w))
        (loop fuel input (job_list ++ job :: jobs) (page + 1)
              (world_after (find_jobs input page w)))
  | Raise e =>
      Run (Raise e) (world_after (find_jobs input page w))
          (Log Info ("StandOutSearch search page: " ++ str_of_int page)%string
           :: trace (find_jobs input page w))
  | OutOfFuel =>
      Run OutOfFuel (world_after (find_jobs input page w))
          (Log Info ("StandOutSearch search page: " ++ str_of_int page)%string
           :: trace (find_jobs input page w))
  end.
Proof.
  intros H. cbn [scrape_loop].
  destruct (Z.geb_spec (len job_list) (results_wanted input)); [lia | ].
  unfold logger, sleep. rewrite bind_emit.
  destruct (result (find_jobs input page w)) as [[ | job jobs] | e | ] eqn:E.
  - rewrite (bind_return _ _ _ E). unfold after_calls, ret. cbn.
    now rewrite app_nil_r.
  - rewrite (bind_return _ _ _ E), bind_emit, !after_calls_app.
    unfold iteration_calls. cbn [st_page st_world app]. reflexivity.
  - rewrite (bind_raise _ _ _ E). reflexivity.
  - rewrite (bind_out_of_fuel _ _ _ E). reflexivity.
Qed.

(** The rounds of the loop, unrolled. *)
Lemma rounds_unroll (input : ScraperInput) s visits calls s' :
  rounds input s visits calls s' ->
  forall fuel,
    loop (length visits + fuel) input (st_jobs s) (st_page s) (st_world s)
    = after_calls calls
        (loop fuel input (st_jobs s') (st_page s') (st_world s')).
Proof.
  induction 1 as [s | s jobs visits calls s' Hq Hres Hne _ IH]; intros fuel.
  - cbn. now rewrite after_calls_nil.
  - cbn [length plus]. rewrite loop_below_quota by exact Hq. rewrite Hres.
    destruct jobs as [ | job jobs]; [congruence | ].
    cbn [st_jobs st_page st_world] in IH. rewrite IH.
    destruct s; apply after_calls_app.
Qed.

Lemma rounds_state (input : ScraperInput) s visits calls s' :
  rounds input s visits calls s' ->
  st_jobs s' = st_jobs s ++ collected visits
  /\ st_page s' = st_page s + len visits.
Proof.
  induction 1 as [s | s jobs visits calls s' Hq Hres Hne _ IH].
  - cbn. rewrite app_nil_r. split; [reflexivity | unfold len; cbn; lia].
  - cbn [st_jobs st_page] in IH. destruct IH as (-> & ->).
    unfold collected, len. cbn [map concat length].
    rewrite <- app_assoc. split; [reflexivity | lia].
Qed.

Lemma rounds_pages (input : ScraperInput) s visits calls s' :
  rounds input s visits calls s' ->
  map (@v_page World) visits
  = map (fun i => st_page s + Z.of_nat i) (seq 0 (length visits)).
Proof.
  induction 1 as [s | s jobs visits calls s' Hq Hres Hne _ IH];
    [reflexivity | ].
  cbn [map length seq v_page]. f_equal; [lia | ].
  rewrite IH, <- seq_shift, map_map. cbn [st_page].
  apply map_ext. intros i. lia.
Qed.

Lemma rounds_visits (input : ScraperInput) s visits calls s' :
  rounds input s visits calls s' ->
  Forall (fun v =>
            v_jobs v <> []
            /\ exists cs,
                listing_containers session_get BeautifulSoup
                                   (v_page v) (v_world v) cs
                /\ Forall2 from_container cs (v_jobs v))
         visits.
Proof.
  induction 1 as [s | s jobs visits calls s' Hq Hres Hne _ IH];
    constructor; [ | exact IH].
  cbn. split; [exact Hne | ].
  destruct (find_jobs_returns _ _ _ Hres Hne) as (cs & Hcs & Hall & _).
  eauto.
Qed.

Lemma iteration_listing_fetches (input : ScraperInput) s :
  listing_fetches
    (iteration_calls session_get fetch_html BeautifulSoup input s)
  = [SessionGet (listing_url (st_page s))].
Proof.
  unfold iteration_calls, listing_fetches.
  cbn [filter is_session_get]. fold (listing_fetches
    (trace (find_jobs input (st_page s) (st_world s)) ++ [Sleep delay])).
  rewrite listing_fetches_app, find_jobs_listing_fetches. reflexivity.
Qed.

Lemma rounds_listing_fetches (input : ScraperInput) s visits calls s' :
  rounds input s visits calls s' ->
  listing_fetches calls
  = map (fun v => SessionGet (listing_url (v_page v))) visits.
Proof.
  induction 1 as [s | s jobs visits calls s' Hq Hres Hne _ IH];
    [reflexivity | ].
  rewrite listing_fetches_app, iteration_listing_fetches, IH. reflexivity.
Qed.

(** Every run of the loop is some rounds followed by a last pass through
    the head of the loop, which one unit of fuel is enough to run. *)
Lemma loop_decompose (input : ScraperInput) (fuel : nat) :
  forall s,
    result (loop fuel input (st_jobs s) (st_page s) (st_world s))
      <> OutOfFuel ->
    exists visits calls s',
      rounds input s visits calls s'
      /\ (length visits < fuel)%nat
      /\ result (loop 1 input (st_jobs s') (st_page s') (st_world s'))
         <> OutOfFuel
      /\ loop fuel input (st_jobs s) (st_page s) (st_world s)
         = after_calls calls
             (loop 1 input (st_jobs s') (st_page s') (st_world s')).
Proof.
  induction fuel as [ | fuel IH]; intros s Hres.
  - now contradiction Hres.
  - destruct (Z.le_gt_cases (results_wanted input) (len (st_jobs s)))
      as [Hq | Hq].
    + exists [], [], s. split; [constructor | ].
      split; [cbn; lia | ].
      rewrite !loop_quota_met by exact Hq. rewrite after_calls_nil.
      split; [discriminate | reflexivity].
    + rewrite loop_below_quota in Hres |- * by exact Hq.
      destruct (result (find_jobs input (st_page s) (st_world s)))
        as [[ | job jobs] | e | ] eqn:E.
      * exists [], [], s. split; [constructor | ]. split; [cbn; lia | ].
        rewrite loop_below_quota by exact Hq. rewrite E, after_calls_nil.
        split; [discriminate | reflexivity].
      * cbn [after_calls result] in Hres.
        destruct (IH (LoopState (st_jobs s ++ job :: jobs) (st_page s + 1)
                        (world_after
                           (find_jobs input (st_page s) (st_world s))))
                     Hres) as (visits & calls & s' & Hr & Hlen & Hlast & Heq).
        exists (Visit (st_page s) (st_world s) (job :: jobs) :: visits),
          (iteration_calls session_get fetch_html BeautifulSoup input s
           ++ calls), s'.
        split; [apply loops_round; auto; discriminate | ].
        split; [cbn; lia | ]. split; [exact Hlast | ].
        cbn [st_jobs st_page st_world] in Heq. rewrite Heq.
        rewrite after_calls_app. destruct s; reflexivity.
      * exists [], [], s. split; [constructor | ]. split; [cbn; lia | ].
        rewrite loop_below_quota by exact Hq. rewrite E, after_calls_nil.
        split; [discriminate | reflexivity].
      * now contradiction Hres.
Qed.

(** The loop runs out of fuel only when given too little: the number of
    records still wanted bounds the number of rounds. *)
Lemma loop_terminates (input : ScraperInput) (fuel : nat) :
  forall (job_list : list JobPost) (page : Z) (w : World),
    (Z.to_nat (results_wanted input - len job_list) < fuel)%nat ->
    result (loop fuel input job_list page w) <> OutOfFuel.
Proof.
  induction fuel as [ | fuel IH]; intros job_list page w Hfuel; [lia | ].
  destruct (Z.le_gt_cases (results_wanted input) (len job_list)) as [Hq | Hq].
  - rewrite loop_quota_met by exact Hq. discriminate.
  - rewrite loop_below_quota by exact Hq.
    pose proof (find_jobs_never_out_of_fuel input page w) as Hf.
    destruct (result (find_jobs input page w)) as [[ | job jobs] | e | ];
      try discriminate; [ | congruence].
    cbn [after_calls result]. apply IH.
    unfold len in *. rewrite length_app. cbn [length]. lia.
Qed.

(** The listing pages requested by the loop are at most as many as the
    records still wanted. *)
Lemma loop_listing_fetches (input : ScraperInput) (fuel : nat) :
  forall (job_list : list JobPost) (page : Z) (w : World),
    (length (listing_fetches (trace (loop fuel input job_list page w)))
     <= Z.to_nat (results_wanted input - len job_list))%nat.
Proof.
  induction fuel as [ | fuel IH]; intros job_list page w; [cbn; lia | ].
  destruct (Z.le_gt_cases (results_wanted input) (len job_list)) as [Hq | Hq].
  - rewrite loop_quota_met by exact Hq. cbn; lia.
  - rewrite loop_below_quota by exact Hq.
    pose proof (find_jobs_listing_fetches input page w) as Hone.
    pose proof (iteration_listing_fetches input (LoopState job_list page w))
      as Hround.
    unfold listing_fetches in *.
    destruct (result (find_jobs input page w)) as [[ | job jobs] | e | ];
      cbn [after_calls trace filter is_session_get];
      try (rewrite Hone; cbn; lia).
    rewrite filter_app, Hround.
    specialize (IH (job_list ++ job :: jobs) (page + 1)
                   (world_after (find_jobs input page w))).
    unfold len in *. rewrite length_app in *. cbn [length app] in *. lia.
Qed.

(** Fuel beyond what a run needs does not change the run. *)
Lemma loop_more_fuel (input : ScraperInput) (fuel : nat) :
  forall (extra : nat) (job_list : list JobPost) (page : Z) (w : World),
    result (loop fuel input job_list page w) <> OutOfFuel ->
    loop (fuel + extra) input job_list page w
    = loop fuel input job_list page w.
Proof.
  induction fuel as [ | fuel IH]; intros extra job_list page w Hres.
  - now contradiction Hres.
  - cbn [plus].
    destruct (Z.le_gt_cases (results_wanted input) (len job_list)) as [Hq | Hq].
    + now rewrite !loop_quota_met by exact Hq.
    + rewrite loop_below_quota in Hres by exact Hq.
      rewrite !loop_below_quota by exact Hq.
      destruct (result (find_jobs input page w)) as [[ | job jobs] | e | ];
        try reflexivity.
      cbn [after_calls result] in Hres. now rewrite IH.
Qed.

(** *** [scrape] *)

Lemma scrape_unfold (fuel : nat) (input : ScraperInput) (w : World) :
  scrape_site fuel input w =
  match result (loop fuel input [] 1 w) with
  | Return job_list =>
      Run (Return {| jobs := slice_to job_list (results_wanted input) |})
          (world_after (loop fuel input [] 1 w))
          (trace (loop fuel input [] 1 w))
  | Raise e =>
      Run (Raise e) (world_after (loop fuel input [] 1 w))
          (trace (loop fuel input [] 1 w))
  | OutOfFuel =>
      Run OutOfFuel (world_after (loop fuel input [] 1 w))
          (trace (loop fuel input [] 1 w))
  end.
Proof.
  unfold scrape, bind.
  destruct (result (loop fuel input [] 1 w)); cbn; try reflexivity.
  now rewrite app_nil_r.
Qed.

Lemma scrape_trace (fuel : nat) (input : ScraperInput) (w : World) :
  trace (scrape_site fuel input w) = trace (loop fuel input [] 1 w).
Proof.
  rewrite scrape_unfold.
  now destruct (result (loop fuel input [] 1 w)).
Qed.

Lemma scrape_terminates (fuel : nat) (input : ScraperInput) (w : World) :
  (Z.to_nat (results_wanted input) < fuel)%nat ->
  result (scrape_site fuel input w) <> OutOfFuel.
Proof.
  intros Hfuel. rewrite scrape_unfold.
  pose proof (@loop_terminates input fuel [] 1 w) as Hl.
  unfold len in Hl. cbn [length] in Hl. rewrite Z.sub_0_r in Hl.
  specialize (Hl Hfuel).
  destruct (result (loop fuel input [] 1 w)); cbn; congruence.
Qed.

Lemma slice_to_length (A : Type) (l : list A) (stop : Z) :
  0 <= stop -> len (slice_to l stop) <= stop.
Proof.
  intros H. unfold slice_to, len.
  destruct (Z.leb_spec 0 stop); [ | lia].
  rewrite length_firstn. lia.
Qed.

Lemma slice_to_all (A : Type) (l : list A) (stop : Z) :
  len l <= stop -> slice_to l stop = l.
Proof.
  intros H. unfold slice_to, len in *.
  destruct (Z.leb_spec 0 stop); [ | lia].
  apply firstn_all2. lia.
Qed.

Lemma slice_to_Forall (A : Type) (P : A -> Prop) (l : list A) (stop : Z) :
  Forall P l -> Forall P (slice_to l stop).
Proof.
  intros H. unfold slice_to.
  destruct (0 <=? stop).
  - rewrite <- (firstn_skipn (Z.to_nat stop) l) in H.
    now apply Forall_app in H.
  - rewrite <- (firstn_skipn (Z.to_nat (Z.of_nat (length l) + stop)) l) in H.
    now apply Forall_app in H.
Qed.

(** C1. For a quota [results_wanted >= 0], [scrape] terminates (any fuel
    above the quota is enough) and, when it returns, the job list of the
    response has at most [results_wanted] elements. *)
Theorem scrape_length_at_most_quota (fuel : nat) (input : ScraperInput)
        (w : World) :
  0 <= results_wanted input ->
  (Z.to_nat (results_wanted input) < fuel)%nat ->
  match result (scrape_site fuel input w) with
  | Return response => len (jobs response) <= results_wanted input
  | Raise _ => True
  | OutOfFuel => False
  end.
Proof.
  intros Hq Hfuel. pose proof (scrape_terminates input w Hfuel) as Hterm.
  rewrite scrape_unfold in *.
  destruct (result (loop fuel input [] 1 w)) as [job_list | e | ]; cbn in *;
    [ | exact I | congruence].
  now apply slice_to_length.
Qed.

Lemma loop_one_listing_fetches (input : ScraperInput)
      (job_list : list JobPost) (page : Z) (w : World) :
  result (loop 1 input job_list page w) <> OutOfFuel ->
  (length (listing_fetches (trace (loop 1 input job_list page w))) <= 1)%nat.
Proof.
  destruct (Z.le_gt_cases (results_wanted input) (len job_list)) as [Hq | Hq].
  - rewrite loop_quota_met by exact Hq. cbn; lia.
  - rewrite loop_below_quota by exact Hq.
    pose proof (find_jobs_listing_fetches input page w) as Hone.
    unfold listing_fetches in *.
    destruct (result (find_jobs input page w)) as [[ | job jobs] | e | ];
      cbn [after_calls result trace filter is_session_get];
      try (rewrite Hone; cbn; lia).
    intros H. now contradiction H.
Qed.

(** C9. For a quota [results_wanted >= 0], [scrape] terminates: with any
    fuel above the quota the run does not run out of fuel, and all such
    runs are the same run. It requests at most [results_wanted + 1]
    listing pages (in fact at most [results_wanted]): the run is a number
    of rounds of the loop, each entered with fewer records than wanted
    and each adding at least one record, followed by at most one more
    request. *)
Theorem scrape_terminates_within_quota_fetches (fuel : nat)
        (input : ScraperInput) (w : World) :
  0 <= results_wanted input ->
  (Z.to_nat (results_wanted input) < fuel)%nat ->
  result (scrape_site fuel input w) <> OutOfFuel
  /\ (forall fuel', (Z.to_nat (results_wanted input) < fuel')%nat ->
                    scrape_site fuel' input w = scrape_site fuel input w)
  /\ Z.of_nat (length (listing_fetches (trace (scrape_site fuel input w))))
     <= results_wanted input + 1
  /\ Z.of_nat (length (listing_fetches (trace (scrape_site fuel input w))))
     <= results_wanted input
  /\ exists visits calls s last,
      rounds input (initial w) visits calls s
      /\ Forall (fun v => v_jobs v <> []) visits
      /\ listing_fetches (trace (scrape_site fuel input w))
         = map (fun v => SessionGet (listing_url (v_page v))) visits ++ last
      /\ (length last <= 1)%nat.
Proof.
  intros Hq Hfuel.
  assert (Hcount : Z.of_nat (length (listing_fetches
                                       (trace (scrape_site fuel input w))))
                   <= results_wanted input).
  { rewrite scrape_trace.
    pose proof (@loop_listing_fetches input fuel [] 1 w) as Hl.
    unfold len in Hl. cbn [length] in Hl. lia. }
  assert (Hterm : result (loop fuel input [] 1 w) <> OutOfFuel).
  { apply loop_terminates. unfold len; cbn [length]. lia. }
  split; [now apply scrape_terminates | ].
  split; [ | split; [lia | split; [exact Hcount | ]]].
  - intros fuel' Hfuel'.
    assert (Hbase : forall f, (Z.to_nat (results_wanted input) < f)%nat ->
              loop f input [] 1 w
              = loop (S (Z.to_nat (results_wanted input))) input [] 1 w).
    { intros f Hf.
      replace f with (S (Z.to_nat (results_wanted input))
                      + (f - S (Z.to_nat (results_wanted input))))%nat by lia.
      apply loop_more_fuel, loop_terminates.
      unfold len; cbn [length]. lia. }
    rewrite !scrape_unfold, (Hbase fuel Hfuel), (Hbase fuel' Hfuel').
    reflexivity.
  - destruct (@loop_decompose input fuel (initial w) Hterm)
      as (visits & calls & s & Hr & _ & Hlast & Heq).
    cbn [initial st_jobs st_page st_world] in Heq.
    exists visits, calls, s,
      (listing_fetches
         (trace (loop 1 input (st_jobs s) (st_page s) (st_world s)))).
    split; [exact Hr | ].
    split; [ | split].
    + eapply Forall_impl; [ | exact (rounds_visits Hr)].
      cbn. intros v (Hne & _). exact Hne.
    + rewrite scrape_trace, Heq. cbn [after_calls trace].
      now rewrite listing_fetches_app, (rounds_listing_fetches Hr).
    + now apply loop_one_listing_fetches.
Qed.

(** *** Where in a trace the listing pages are requested *)

Lemma find_jobs_trace (input : ScraperInput) (page : Z) (w : World) :
  exists rest,
    trace (find_jobs input page w) = SessionGet (listing_url page) :: rest
    /\ listing_fetches rest = [].
Proof.
  rewrite find_jobs_unfold.
  destruct (session_get (listing_url page) w) as [[e | res] w1];
    [now exists [] | ].
  destruct (status_code res =? 200); [ | now eexists].
  cbn [after_calls trace app]. eexists. split; [reflexivity | ].
  destruct (for_containers_calls
              (job_containers (BeautifulSoup (text res))) [] w1) as (-> & _).
  apply listing_fetches_details.
Qed.

Lemma split_before_first (p : list event) :
  forall (l1 l2 q : list event) (x : event),
    listing_fetches p = [] ->
    is_session_get x = true ->
    l1 ++ x :: l2 = p ++ q ->
    exists b, l1 = p ++ b /\ q = b ++ x :: l2.
Proof.
  induction p as [ | a p IH]; intros l1 l2 q x Hp Hx Heq.
  - exists l1. now split.
  - unfold listing_fetches in Hp. cbn [filter] in Hp.
    destruct (is_session_get a) eqn:Ha; [discriminate | ].
    destruct l1 as [ | a' l1]; cbn [app] in Heq.
    + injection Heq as -> _. congruence.
    + injection Heq as -> Heq.
      destruct (IH _ _ _ _ Hp Hx Heq) as (b & -> & ->).
      now exists b.
Qed.

Lemma loop_fetch_below_quota (input : ScraperInput) (fuel : nat) :
  forall s before url after,
    trace (loop fuel input (st_jobs s) (st_page s) (st_world s))
    = before ++ SessionGet url :: after ->
    exists visits calls s',
      rounds input s visits calls s'
      /\ len (st_jobs s') < results_wanted input
      /\ url = listing_url (st_page s')
      /\ before
         = calls ++ [Log Info ("StandOutSearch search page: "
                               ++ str_of_int (st_page s'))%string].
Proof.
  induction fuel as [ | fuel IH]; intros s before url after Htrace.
  - cbn in Htrace. now destruct before.
  - destruct (Z.le_gt_cases (results_wanted input) (len (st_jobs s)))
      as [Hq | Hq].
    + rewrite loop_quota_met in Htrace by exact Hq. cbn in Htrace.
      now destruct before.
    + rewrite loop_below_quota in Htrace by exact Hq.
      destruct (find_jobs_trace input (st_page s) (st_world s))
        as (rest & Hfj & Hrest).
      set (msg := Log Info ("StandOutSearch search page: "
                            ++ str_of_int (st_page s))%string) in *.
      assert (Hshape : exists tail,
                 before ++ SessionGet url :: after
                 = [msg] ++ (SessionGet (listing_url (st_page s))
                             :: rest ++ tail)
                 /\ (tail = []
                     \/ exists job jobs,
                         result (find_jobs input (st_page s) (st_world s))
                         = Return (job :: jobs)
                         /\ tail = Sleep delay
                            :: trace (loop fuel input
                                        (st_jobs s ++ job :: jobs)
                                        (st_page s + 1)
                                        (world_after
                                           (find_jobs input (st_page s)
                                                      (st_world s))))
                         )).
      { rewrite <- Htrace.
        destruct (result (find_jobs input (st_page s) (st_world s)))
          as [[ | job jobs] | e | ] eqn:E;
          cbn [after_calls trace]; unfold iteration_calls;
          cbn [st_page st_world st_jobs]; rewrite Hfj;
          try (exists []; split; [now rewrite app_nil_r | now left]).
        eexists. split; [ | right; exists job, jobs; split; reflexivity].
        cbn [app]. now rewrite <- app_assoc. }
      destruct Hshape as (tail & Heq & Htail).
      apply split_before_first in Heq; [ | reflexivity | reflexivity].
      destruct Heq as (b & -> & Heq).
      destruct b as [ | e b]; cbn [app] in Heq.
      * injection Heq as <- _.
        exists [], [], s. split; [constructor | ]. auto.
      * injection Heq as <- Heq. symmetry in Heq.
        apply split_before_first in Heq; [ | exact Hrest | reflexivity].
        destruct Heq as (b' & -> & Heq).
        destruct Htail as [-> | (job & jobs & E & ->)];
          [now destruct b' | ].
        destruct b' as [ | e' b']; cbn [app] in Heq; [discriminate | ].
        injection Heq as <- Heq.
        destruct (IH (LoopState (st_jobs s ++ job :: jobs) (st_page s + 1)
                        (world_after
                           (find_jobs input (st_page s) (st_world s))))
                     _ _ _ Heq)
          as (visits & calls & s' & Hr & Hlt & Hurl & ->).
        exists (Visit (st_page s) (st_world s) (job :: jobs) :: visits),
          (iteration_calls session_get fetch_html BeautifulSoup input s
           ++ calls), s'.
        split; [apply loops_round; auto; discriminate | ].
        split; [exact Hlt | ]. split; [exact Hurl | ].
        unfold iteration_calls. rewrite Hfj. fold msg.
        cbn [app]. now rewrite <- !app_assoc.
Qed.

(** C3. The quota is checked before every request for a listing page.
    With [results_wanted <= 0] no listing page is requested. In general,
    whenever [session.get] is called for a listing page, the loop has gone
    round some number of times before, the records collected on those
    rounds are fewer than [results_wanted], the page requested is the next
    one, and the call directly follows the log line that announces it. *)
Theorem quota_checked_before_listing_fetch (fuel : nat)
        (input : ScraperInput) (w : World) :
  (results_wanted input <= 0 ->
   scrape_site (S fuel) input w = Run (Return {| jobs := [] |}) w [])
  /\ (forall before url after,
         trace (scrape_site fuel input w) = before ++ SessionGet url :: after ->
         exists visits calls s,
           rounds input (initial w) visits calls s
           /\ len (collected visits) < results_wanted input
           /\ url = listing_url (1 + len visits)
           /\ before
              = calls ++ [Log Info ("StandOutSearch search page: "
                                    ++ str_of_int (1 + len visits))%string]).
Proof.
  split.
  - intros Hq. rewrite scrape_unfold.
    rewrite loop_quota_met by (unfold len; cbn [length]; lia).
    cbn. unfold slice_to. destruct (0 <=? results_wanted input); cbn.
    + now rewrite firstn_nil.
    + now rewrite firstn_nil.
  - intros before url after Htrace. rewrite scrape_trace in Htrace.
    destruct (@loop_fetch_below_quota input fuel (initial w) _ _ _ Htrace)
      as (visits & calls & s & Hr & Hlt & -> & ->).
    destruct (rounds_state Hr) as (Hjobs & Hpage).
    cbn [initial st_jobs st_page app] in Hjobs, Hpage.
    rewrite Hjobs in Hlt. rewrite Hpage.
    exists visits, calls, s. auto.
Qed.

(** *** What a returning run of [scrape] is made of *)

Lemma loop_one_returns (input : ScraperInput) (job_list out : list JobPost)
      (page : Z) (w : World) :
  result (loop 1 input job_list page w) = Return out -> out = job_list.
Proof.
  destruct (Z.le_gt_cases (results_wanted input) (len job_list)) as [Hq | Hq].
  - rewrite loop_quota_met by exact Hq. now intros [= <-].
  - rewrite loop_below_quota by exact Hq.
    destruct (result (find_jobs input page w)) as [[ | job jobs] | e | ];
      cbn; congruence.
Qed.

Lemma scrape_returns (fuel : nat) (input : ScraperInput) (w : World)
      (response : JobResponse) :
  result (scrape_site fuel input w) = Return response ->
  exists visits calls s,
    rounds input (initial w) visits calls s
    /\ jobs response = slice_to (collected visits) (results_wanted input).
Proof.
  rewrite scrape_unfold. intros Hres.
  assert (Hfuel : result (loop fuel input [] 1 w) <> OutOfFuel).
  { intros E. rewrite E in Hres. discriminate. }
  destruct (@loop_decompose input fuel (initial w) Hfuel)
    as (visits & calls & s & Hr & _ & _ & Heq).
  cbn [initial st_jobs st_page st_world] in Heq. rewrite Heq in Hres.
  cbn [after_calls result] in Hres.
  destruct (result (loop 1 input (st_jobs s) (st_page s) (st_world s)))
    as [out | e | ] eqn:E; try discriminate.
  apply loop_one_returns in E. subst out.
  destruct (rounds_state Hr) as (Hjobs & _). cbn in Hjobs.
  injection Hres as <-. exists visits, calls, s.
  split; [exact Hr | ]. cbn. now rewrite Hjobs.
Qed.

Lemma from_container_named (cs : list element) (posts : list JobPost) :
  Forall2 from_container cs posts ->
  Forall (fun post => title post <> None /\ company_name post <> None) posts.
Proof.
  induction 1 as [ | c post cs posts Hfrom _ IH]; constructor; [ | exact IH].
  destruct Hfrom as ((te & _ & ->) & (ce & _ & ->) & _).
  split; discriminate.
Qed.

(** C6. Every record of the response [scrape] returns has a title and a
    company name that are not [None]; nothing of the kind is required of
    the four detail fields, each of which is [None] when the detail page
    has no label for it. *)
Theorem scrape_records_have_title_and_company (fuel : nat)
        (input : ScraperInput) (w : World) (response : JobResponse) :
  result (scrape_site fuel input w) = Return response ->
  Forall (fun post => title post <> None /\ company_name post <> None)
         (jobs response).
Proof.
  intros Hres.
  destruct (scrape_returns _ _ _ Hres) as (visits & calls & s & Hr & ->).
  apply slice_to_Forall. unfold collected. apply Forall_concat.
  apply Forall_map.
  pose proof (rounds_visits Hr) as Hv.
  eapply Forall_impl; [ | exact Hv].
  cbn. intros v (_ & cs & _ & Hfrom).
  exact (from_container_named Hfrom).
Qed.

(** C7. The response of [scrape] lists the records page by page and, within
    a page, container by container: it is the slice [[:results_wanted]] of
    the concatenation of the lists that the successive calls of
    [_find_jobs_in_page] returned for pages 1, 2, ... in that order, and
    the list of each page has one record per job container of the page, in
    the order of the containers in the document. *)
Theorem scrape_in_page_then_container_order (fuel : nat)
        (input : ScraperInput) (w : World) (response : JobResponse) :
  result (scrape_site fuel input w) = Return response ->
  exists visits calls s,
    rounds input (initial w) visits calls s
    /\ jobs response = slice_to (collected visits) (results_wanted input)
    /\ map (@v_page World) visits
       = map (fun i => 1 + Z.of_nat i) (seq 0 (length visits))
    /\ Forall (fun v =>
                 exists cs,
                   listing_containers session_get BeautifulSoup
                                      (v_page v) (v_world v) cs
                   /\ Forall2 from_container cs (v_jobs v))
              visits.
Proof.
  intros Hres.
  destruct (scrape_returns _ _ _ Hres) as (visits & calls & s & Hr & Hjobs).
  exists visits, calls, s. split; [exact Hr | ]. split; [exact Hjobs | ].
  split; [exact (rounds_pages Hr) | ].
  eapply Forall_impl; [ | exact (rounds_visits Hr)].
  cbn. intros v (_ & H). exact H.
Qed.

(** *** Detail fetches and the quota *)

Lemma Forall2_same_length (A B : Type) (R : A -> B -> Prop) l1 l2 :
  Forall2 R l1 l2 -> length l1 = length l2.
Proof. induction 1; cbn; congruence. Qed.

Lemma find_jobs_details (input : ScraperInput) (page : Z) (w : World)
      (cs : list element) (jobs : list JobPost) :
  listing_containers session_get BeautifulSoup page w cs ->
  result (find_jobs input page w) = Return jobs ->
  Forall2 from_container cs jobs
  /\ map container_href cs
     = map Some (detail_fetches (trace (find_jobs input page w))).
Proof.
  intros Hcs. destruct (find_jobs_200 input Hcs) as (w1 & ->).
  cbn [after_calls result trace app detail_fetches]. intros Hres.
  destruct (for_containers_returns _ _ _ Hres) as (new & -> & Hall & Hrefs).
  now split.
Qed.

(** C10. The details are fetched and merged before the list is cut to the
    quota. [_find_jobs_in_page] does not look at the quota, and when it
    returns it has called [fetch_html] once for every job container of the
    page, in order, with the href of the container. [scrape] slices
    afterwards: when page 1 returns at least [results_wanted > 0] records,
    [scrape] returns the first [results_wanted] of them and the detail
    fetches of the run are those of all the containers of the page. *)
Theorem details_fetched_before_truncation (input : ScraperInput) (page : Z)
        (w : World) (cs : list element) (jobs : list JobPost) :
  listing_containers session_get BeautifulSoup page w cs ->
  result (find_jobs input page w) = Return jobs ->
  (forall other, find_jobs other page w = find_jobs input page w)
  /\ length jobs = length cs
  /\ map container_href cs
     = map Some (detail_fetches (trace (find_jobs input page w)))
  /\ (page = 1 ->
      0 < results_wanted input <= len jobs ->
      forall fuel,
        result (scrape_site (S (S fuel)) input w)
        = Return {| jobs := firstn (Z.to_nat (results_wanted input)) jobs |}
        /\ map Some (detail_fetches (trace (scrape_site (S (S fuel)) input w)))
           = map container_href cs).
Proof.
  intros Hcs Hres.
  destruct (find_jobs_details input Hcs Hres) as (Hall & Hrefs).
  split; [reflexivity | ].
  split; [symmetry; exact (Forall2_same_length Hall) | ].
  split; [exact Hrefs | ].
  intros -> Hq fuel.
  rewrite scrape_unfold.
  rewrite loop_below_quota by (unfold len; cbn [length]; lia).
  rewrite Hres. destruct jobs as [ | job jobs]; [unfold len in Hq; cbn in Hq; lia | ].
  cbn [app after_calls result world_after trace].
  rewrite loop_quota_met by (cbn [app]; lia).
  cbn [result trace]. split.
  - f_equal. f_equal. unfold slice_to.
    destruct (Z.leb_spec 0 (results_wanted input)); [reflexivity | lia].
  - rewrite app_nil_r, Hrefs. f_equal.
    unfold iteration_calls. cbn [st_page st_world detail_fetches].
    rewrite detail_fetches_app. cbn. now rewrite app_nil_r.
Qed.

(** *** Failures *)

Lemma loop_no_warning (input : ScraperInput) (fuel : nat) :
  forall (job_list : list JobPost) (page : Z) (w : World),
    existsb is_warning (trace (loop fuel input job_list page w)) = false.
Proof.
  induction fuel as [ | fuel IH]; intros job_list page w; [reflexivity | ].
  destruct (Z.le_gt_cases (results_wanted input) (len job_list)) as [Hq | Hq].
  - now rewrite loop_quota_met by exact Hq.
  - rewrite loop_below_quota by exact Hq.
    pose proof (find_jobs_no_warning input page w) as Hp.
    destruct (result (find_jobs input page w)) as [[ | job jobs] | e | ];
      cbn [after_calls trace existsb is_warning orb]; try exact Hp.
    unfold iteration_calls. cbn [st_page st_world app existsb is_warning orb].
    rewrite !existsb_app, Hp, IH. reflexivity.
Qed.

Lemma scrape_after_rounds (input : ScraperInput) visits calls s
      (fuel : nat) (w0 : World) :
  rounds input (initial w0) visits calls s ->
  (length visits < fuel)%nat ->
  exists fuel',
    loop fuel input [] 1 w0
    = after_calls calls
        (loop (S fuel') input (collected visits) (st_page s) (st_world s)).
Proof.
  intros Hr Hfuel. exists (fuel - length visits - 1)%nat.
  destruct (rounds_state Hr) as (Hjobs & _). cbn in Hjobs. rewrite <- Hjobs.
  replace fuel with (length visits + S (fuel - length visits - 1))%nat
    at 1 by lia.
  exact (rounds_unroll Hr _).
Qed.

(** C2, as the code has it. Suppose the loop has gone round for the pages
    before [p], collecting fewer records than wanted, so that page [p] is
    requested. If the answer has a status other than 200, or is a 200 whose
    document has no job container, [scrape] makes no further call (but for
    the error log line of a bad status) and returns exactly the records of
    the pages before [p]. If instead [session.get] raises, [scrape] ends
    with that exception and returns nothing. *)
Theorem listing_failure_ends_pagination (input : ScraperInput)
        visits calls s (fuel : nat) (w0 : World) :
  rounds input (initial w0) visits calls s ->
  len (collected visits) < results_wanted input ->
  (length visits < fuel)%nat ->
  match session_get (listing_url (st_page s)) (st_world s) with
  | (inl e, w1) =>
      scrape_site fuel input w0
      = Run (Raise e) w1
            (calls ++ [Log Info ("StandOutSearch search page: "
                                 ++ str_of_int (st_page s))%string;
                       SessionGet (listing_url (st_page s))])
  | (inr res, w1) =>
      status_code res <> 200
      \/ job_containers (BeautifulSoup (text res)) = [] ->
      scrape_site fuel input w0
      = Run (Return {| jobs := collected visits |}) w1
            (calls ++ Log Info ("StandOutSearch search page: "
                                ++ str_of_int (st_page s))%string
                   :: SessionGet (listing_url (st_page s))
                   :: (if status_code res =? 200 then []
                       else [Log Error
                               ("Failed to fetch page "
                                ++ str_of_int (st_page s) ++ ": "
                                ++ str_of_int (status_code res))%string]))
  end.
Proof.
  intros Hr Hq Hfuel.
  destruct (scrape_after_rounds Hr Hfuel) as (fuel' & Heq).
  rewrite scrape_unfold, Heq. clear Heq.
  rewrite loop_below_quota by exact Hq.
  rewrite find_jobs_unfold.
  destruct (session_get (listing_url (st_page s)) (st_world s))
    as [[e | res] w1]; [reflexivity | ].
  intros Hfail.
  destruct (Z.eqb_spec (status_code res) 200) as [Hs | Hs].
  - destruct Hfail as [Hfail | Hfail]; [contradiction | ].
    rewrite Hfail. cbn. rewrite slice_to_all by lia. reflexivity.
  - cbn. rewrite slice_to_all by lia. reflexivity.
Qed.

Lemma parse_details_outcome (html : string) (w : World) :
  if some_dangling_label (BeautifulSoup html)
  then result (parse_details html w) = Raise (AttributeError "get_text")
  else exists details, result (parse_details html w) = Return details.
Proof.
  unfold _parse_job_details, some_dangling_label, dangling_label, bind,
    labelled.
  set (soup := BeautifulSoup html).
  destruct (find soup "p" label_class (Some "Location:")) as [l | ];
    [destruct (find_next_sibling l "span") as [ls | ] | ]; cbn;
    try reflexivity;
  (destruct (find soup "p" label_class (Some "Address:")) as [a | ];
    [destruct (find_next_sibling a "p") as [asib | ] | ]; cbn;
    try reflexivity;
  (destruct (find soup "p" label_class (Some "Mode:")) as [m | ];
    [destruct (find_next_sibling m "span") as [ms | ] | ]; cbn;
    try reflexivity;
  (destruct (find soup "p" label_class (Some "Description:")) as [d | ];
    [destruct (find_next_sibling d "p") as [ds | ] | ]; cbn;
    try reflexivity; eauto))).
Qed.

(** C5, as the code has it. A job container without one of its mandatory
    fields makes [_process_job] raise before any detail is fetched:
    [AttributeError] when the title paragraph is missing, [AttributeError]
    when the company paragraph is missing, [TypeError] when the link is
    missing, [KeyError] when the link has no [href]. Only a missing
    deadline is tolerated: the record is built with its deadline [None].
    Nothing catches the exception: when a page that [scrape] requests has
    a container without a mandatory field, [_find_jobs_in_page] raises on
    that page, [scrape] ends with the same exception and returns no
    record at all. No warning is logged. *)
Theorem incomplete_container_aborts_scrape (input : ScraperInput)
        visits calls s (cs : list element) (fuel : nat) (w0 : World) :
  rounds input (initial w0) visits calls s ->
  len (collected visits) < results_wanted input ->
  (length visits < fuel)%nat ->
  listing_containers session_get BeautifulSoup (st_page s) (st_world s) cs ->
  existsb (fun c => lacks_mandatory (el_node c)) cs = true ->
  (forall c w, In c cs -> lacks_mandatory (el_node c) = true ->
               exists e, process_job (el_node c) w = Run (Raise e) w []
                         /\ mandatory_exn e)
  /\ (exists e,
         result (find_jobs input (st_page s) (st_world s)) = Raise e
         /\ result (scrape_site fuel input w0) = Raise e)
  /\ existsb is_warning (trace (scrape_site fuel input w0)) = false
  /\ (forall c w,
         find c "p" title_class None = None ->
         process_job c w = Run (Raise (AttributeError "get_text")) w [])
  /\ (forall c w te,
         find c "p" title_class None = Some te ->
         find c "p" company_class None = None ->
         process_job c w = Run (Raise (AttributeError "get_text")) w [])
  /\ (forall c w te ce,
         find c "p" title_class None = Some te ->
         find c "p" company_class None = Some ce ->
         find c "a" link_class None = None ->
         process_job c w = Run (Raise TypeError) w [])
  /\ (forall c w te ce a,
         find c "p" title_class None = Some te ->
         find c "p" company_class None = Some ce ->
         find c "a" link_class None = Some a ->
         get_attr (el_node a) "href" = None ->
         process_job c w = Run (Raise (KeyError "href")) w [])
  /\ (forall c w te ce a h html w',
         find c "p" title_class None = Some te ->
         find c "p" company_class None = Some ce ->
         find c "a" link_class None = Some a ->
         get_attr (el_node a) "href" = Some h ->
         find c "span" deadline_class None = None ->
         fetch_html h w = (inr html, w') ->
         some_dangling_label (BeautifulSoup html) = false ->
         exists post,
           process_job c w = Run (Return (Some post)) w' [FetchHtml h]
           /\ deadline post = None
           /\ title post = Some (get_text_strip (el_node te))
           /\ company_name post = Some (get_text_strip (el_node ce))
           /\ job_url post = Some h).
Proof.
  intros Hr Hq Hfuel Hcs Hlacks.
  split; [intros c w _ Hc; now apply process_job_incomplete | ].
  split; [ | split; [rewrite scrape_trace; apply loop_no_warning | ]].
  - destruct (find_jobs_200 input Hcs) as (w1 & Hfj).
    destruct (for_containers_incomplete cs [] w1 Hlacks) as (e & He).
    exists e.
    assert (Hpage : result (find_jobs input (st_page s) (st_world s))
                    = Raise e)
      by now rewrite Hfj.
    split; [exact Hpage | ].
    destruct (scrape_after_rounds Hr Hfuel) as (fuel' & Heq).
    rewrite scrape_unfold, Heq.
    rewrite loop_below_quota by exact Hq. rewrite Hpage. reflexivity.
  - clear. repeat split.
    + intros c w Ht.
      unfold _process_job, required_text, bind. now rewrite Ht.
    + intros c w te Ht Hc.
      unfold _process_job, required_text, bind. now rewrite Ht, Hc.
    + intros c w te ce Ht Hc Ha.
      unfold _process_job, required_text, required_href, bind.
      now rewrite Ht, Hc, Ha.
    + intros c w te ce a Ht Hc Ha Hh.
      unfold _process_job, required_text, required_href, bind.
      now rewrite Ht, Hc, Ha, Hh.
    + intros c w te ce a h html w' Ht Hc Ha Hh Hd Hfetch Hlabels.
      assert (Hok : lacks_mandatory c = false).
      { unfold lacks_mandatory. now rewrite Ht, Hc, Ha, Hh. }
      destruct (process_job_complete c w Hok)
        as (te' & ce' & a' & h' & Ht' & Hc' & Ha' & Hh' & ->).
      rewrite Ht in Ht'. rewrite Hc in Hc'. rewrite Ha in Ha'.
      injection Ht' as <-. injection Hc' as <-. injection Ha' as <-.
      rewrite Hh in Hh'. injection Hh' as <-.
      rewrite Hfetch.
      pose proof (parse_details_outcome html w') as Hparse.
      rewrite Hlabels in Hparse. destruct Hparse as (details & ->).
      eexists. split; [reflexivity | ].
      unfold merged, optional_deadline. cbn. rewrite Hd. auto.
Qed.

(* ------------------------------------------------------------------ *)
(** *** Pauses and the order of the requests *)

Lemma sleeps_app (c1 c2 : list event) :
  sleeps (c1 ++ c2) = sleeps c1 ++ sleeps c2.
Proof.
  induction c1 as [ | e c1 IH]; [reflexivity | ].
  destruct e; cbn; now rewrite ?IH.
Qed.

Lemma sleeps_details (urls : list string) : sleeps (map FetchHtml urls) = [].
Proof. induction urls; cbn; auto. Qed.

Lemma find_jobs_sleeps (input : ScraperInput) (page : Z) (w : World) :
  sleeps (trace (find_jobs input page w)) = [].
Proof.
  rewrite find_jobs_unfold.
  destruct (session_get (listing_url page) w) as [[e | res] w1];
    [reflexivity | ].
  destruct (status_code res =? 200); [ | reflexivity].
  cbn [after_calls trace app sleeps].
  destruct (for_containers_calls
              (job_containers (BeautifulSoup (text res))) [] w1) as (-> & _).
  apply sleeps_details.
Qed.

Lemma loop_sleeps (input : ScraperInput) (fuel : nat) :
  forall (job_list : list JobPost) (page : Z) (w : World),
    sleeps (trace (loop fuel input job_list page w))
    = repeat delay
             (length (sleeps (trace (loop fuel input job_list page w))))
    /\ (length (sleeps (trace (loop fuel input job_list page w)))
        <= length (listing_fetches (trace (loop fuel input job_list page w)))
        <= S (length (sleeps (trace (loop fuel input job_list page w)))))%nat.
Proof.
  induction fuel as [ | fuel IH]; intros job_list page w.
  - cbn. split; [reflexivity | lia].
  - destruct (Z.le_gt_cases (results_wanted input) (len job_list))
      as [Hq | Hq].
    + rewrite loop_quota_met by exact Hq. cbn. split; [reflexivity | lia].
    + rewrite loop_below_quota by exact Hq.
      pose proof (find_jobs_sleeps input page w) as Hs.
      pose proof (find_jobs_listing_fetches input page w) as Hl.
      pose proof (iteration_listing_fetches input (LoopState job_list page w))
        as Hround.
      unfold listing_fetches in *.
      destruct (result (find_jobs input page w)) as [[ | job jobs] | e | ];
        cbn [after_calls trace sleeps filter is_session_get];
        try (rewrite Hs, Hl; cbn; split; [reflexivity | lia]).
      destruct (IH (job_list ++ job :: jobs) (page + 1)
                   (world_after (find_jobs input page w))) as (Hall & Hcount).
      rewrite sleeps_app, filter_app, Hround.
      unfold iteration_calls. cbn [st_page st_world sleeps].
      rewrite sleeps_app, Hs. cbn [app sleeps length].
      split; [cbn [repeat]; now rewrite <- Hall | lia].
Qed.

Lemma to_int_not_nil (n : Z) :
  Z.to_int n <> Decimal.Pos Decimal.Nil
  /\ Z.to_int n <> Decimal.Neg Decimal.Nil.
Proof.
  pose proof (DecimalZ.to_of (Z.to_int n)) as H.
  rewrite DecimalZ.of_to in H.
  split; intros E; rewrite E in H; discriminate H.
Qed.

Lemma str_of_int_injective (n m : Z) : str_of_int n = str_of_int m -> n = m.
Proof.
  unfold str_of_int. intros H.
  apply DecimalZ.to_int_inj.
  destruct (to_int_not_nil n) as (Hn1 & Hn2).
  destruct (to_int_not_nil m) as (Hm1 & Hm2).
  pose proof (NilZero.isi _ Hn1 Hn2) as En.
  pose proof (NilZero.isi _ Hm1 Hm2) as Em.
  rewrite H in En. congruence.
Qed.

Lemma append_injective (p a b : string) :
  (p ++ a)%string = (p ++ b)%string -> a = b.
Proof. induction p as [ | c p IH]; cbn; [auto | intros [= H]; auto]. Qed.

Lemma listing_url_injective (p q : Z) : listing_url p = listing_url q -> p = q.
Proof.
  unfold listing_url. intros H.
  now apply append_injective, append_injective, str_of_int_injective in H.
Qed.

Lemma loop_pages_in_order (input : ScraperInput) (fuel : nat) :
  forall (job_list : list JobPost) (page : Z) (w : World),
    listing_fetches (trace (loop fuel input job_list page w))
    = map (fun i => SessionGet (listing_url (page + Z.of_nat i)))
          (seq 0 (length (listing_fetches
                            (trace (loop fuel input job_list page w))))).
Proof.
  induction fuel as [ | fuel IH]; intros job_list page w; [reflexivity | ].
  destruct (Z.le_gt_cases (results_wanted input) (len job_list)) as [Hq | Hq].
  - now rewrite loop_quota_met by exact Hq.
  - rewrite loop_below_quota by exact Hq.
    pose proof (find_jobs_listing_fetches input page w) as Hl.
    pose proof (iteration_listing_fetches input (LoopState job_list page w))
      as Hround.
    unfold listing_fetches in *.
    destruct (result (find_jobs input page w)) as [[ | job jobs] | e | ];
      cbn [after_calls trace filter is_session_get];
      try (rewrite Hl; cbn; now rewrite Z.add_0_r).
    rewrite filter_app, Hround. cbn [st_page app length seq map].
    rewrite Z.add_0_r. f_equal.
    rewrite (IH (job_list ++ job :: jobs) (page + 1)
                (world_after (find_jobs input page w))) at 1.
    rewrite <- seq_shift, map_map. apply map_ext. intros i.
    do 2 f_equal. lia.
Qed.

(** X2. The listing pages are requested in order and without gaps: the
    [n] calls of [session.get] made by a run of [scrape] are for pages
    1, 2, ..., [n], and no listing url is requested twice. *)
Theorem listing_pages_requested_in_order (fuel : nat) (input : ScraperInput)
        (w : World) :
  listing_fetches (trace (scrape_site fuel input w))
  = map (fun i => SessionGet (listing_url (1 + Z.of_nat i)))
        (seq 0 (length (listing_fetches (trace (scrape_site fuel input w)))))
  /\ NoDup (listing_fetches (trace (scrape_site fuel input w))).
Proof.
  rewrite scrape_trace.
  pose proof (loop_pages_in_order input fuel [] 1 w) as H.
  split; [exact H | ]. rewrite H.
  apply Injective_map_NoDup; [ | apply seq_NoDup].
  intros i j E.
  pose proof (f_equal (fun e => match e with
                                | SessionGet url => url
                                | _ => EmptyString
                                end) E) as E'.
  cbv beta iota in E'. apply listing_url_injective in E'. lia.
Qed.

(* ------------------------------------------------------------------ *)
(** *** The calls of a run that returns *)

Lemma from_container_urls (cs : list element) (posts : list JobPost) :
  Forall2 from_container cs posts ->
  map job_url posts = map container_href cs.
Proof.
  induction 1 as [ | c post cs posts Hfrom _ IH]; [reflexivity | ].
  cbn [map]. f_equal; [ | exact IH].
  destruct Hfrom as (_ & _ & _ & a & Ha & Hurl & _).
  unfold container_href. now rewrite Ha.
Qed.

Lemma urls_of_some (posts : list JobPost) (urls : list string) :
  map job_url posts = map Some urls -> urls_of posts = urls.
Proof.
  revert urls. induction posts as [ | post posts IH]; intros [ | url urls];
    cbn [map]; try discriminate; [reflexivity | ].
  intros [= Hurl Hrest]. unfold urls_of. cbn [flat_map]. rewrite Hurl.
  cbn [app]. f_equal. now apply IH.
Qed.

Lemma urls_of_app (p1 p2 : list JobPost) :
  urls_of (p1 ++ p2) = urls_of p1 ++ urls_of p2.
Proof. unfold urls_of. apply flat_map_app. Qed.

Lemma find_jobs_round_trace (input : ScraperInput) (page : Z) (w : World)
      (posts : list JobPost) :
  result (find_jobs input page w) = Return posts ->
  posts <> [] ->
  trace (find_jobs input page w)
  = SessionGet (listing_url page) :: map FetchHtml (urls_of posts).
Proof.
  intros Hres Hne.
  destruct (find_jobs_returns _ _ _ Hres Hne) as (cs & Hcs & Hall & Hrefs).
  rewrite <- (from_container_urls Hall) in Hrefs.
  apply urls_of_some in Hrefs. rewrite Hrefs.
  destruct (find_jobs_200 input Hcs) as (w1 & ->).
  cbn [after_calls trace app detail_fetches]. f_equal.
  apply for_containers_calls.
Qed.

Lemma find_jobs_empty_trace (input : ScraperInput) (page : Z) (w : World) :
  result (find_jobs input page w) = Return [] ->
  trace (find_jobs input page w) = [SessionGet (listing_url page)]
  \/ exists status,
      status <> 200
      /\ trace (find_jobs input page w)
         = [SessionGet (listing_url page);
            Log Error ("Failed to fetch page " ++ str_of_int page ++ ": "
                       ++ str_of_int status)%string].
Proof.
  rewrite find_jobs_unfold.
  destruct (session_get (listing_url page) w) as [[e | res] w1];
    [discriminate | ].
  destruct (Z.eqb_spec (status_code res) 200) as [Hs | Hs].
  - cbn [after_calls result trace]. intros Hres. left.
    destruct (for_containers_returns _ _ _ Hres) as (new & Hnew & Hall & _).
    destruct new; [ | discriminate].
    destruct (job_containers (BeautifulSoup (text res))); [reflexivity | ].
    inversion Hall.
  - intros _. right. exists (status_code res). now split.
Qed.

Lemma rounds_calls_shape (input : ScraperInput) s visits calls s' :
  rounds input s visits calls s' ->
  calls = flat_map (fun v => page_calls (v_page v) (v_jobs v)) visits.
Proof.
  induction 1 as [s | s jobs visits calls s' Hq Hres Hne _ IH];
    [reflexivity | ].
  cbn [flat_map v_page v_jobs]. rewrite <- IH. f_equal.
  unfold iteration_calls, page_calls.
  rewrite (find_jobs_round_trace _ _ _ Hres Hne). reflexivity.
Qed.

Lemma rounds_calls_end (input : ScraperInput) s visits calls s' :
  rounds input s visits calls s' ->
  visits <> [] ->
  exists before, calls = before ++ [Sleep delay].
Proof.
  induction 1 as [s | s jobs visits calls s' Hq Hres Hne Hrest IH];
    intros Hvisits; [now contradiction Hvisits | ].
  destruct visits as [ | v visits].
  - inversion Hrest; subst. rewrite app_nil_r.
    unfold iteration_calls.
    exists (Log Info ("StandOutSearch search page: "
                      ++ str_of_int (st_page s))%string
            :: trace (find_jobs input (st_page s) (st_world s))).
    reflexivity.
  - destruct IH as (before & ->); [discriminate | ].
    eexists. now rewrite app_assoc.
Qed.

Lemma collected_app (v1 v2 : list (visit World)) :
  collected (v1 ++ v2) = collected v1 ++ collected v2.
Proof. unfold collected. now rewrite map_app, concat_app. Qed.

Lemma rounds_below_quota (input : ScraperInput) s visits calls s' :
  rounds input s visits calls s' ->
  forall front last,
    visits = front ++ [last] ->
    len (st_jobs s ++ collected front) < results_wanted input.
Proof.
  induction 1 as [s | s jobs visits calls s' Hq Hres Hne _ IH];
    intros front last Heq.
  - now destruct front.
  - destruct front as [ | v front]; cbn [app] in Heq.
    + cbn. now rewrite app_nil_r.
    + injection Heq as <- Heq.
      specialize (IH front last Heq). cbn [st_jobs] in IH.
      unfold collected in *. cbn [map concat v_jobs].
      now rewrite <- app_assoc in IH.
Qed.

(** A run that returns: the rounds, then one pass through the head of
    the loop that ends it. *)
Lemma scrape_returns_full (fuel : nat) (input : ScraperInput) (w : World)
      (response : JobResponse) :
  result (scrape_site fuel input w) = Return response ->
  exists visits calls s,
    rounds input (initial w) visits calls s
    /\ jobs response = slice_to (collected visits) (results_wanted input)
    /\ trace (scrape_site fuel input w)
       = calls ++ trace (loop 1 input (collected visits) (st_page s)
                              (st_world s))
    /\ result (loop 1 input (collected visits) (st_page s) (st_world s))
       = Return (collected visits).
Proof.
  intros Hres. rewrite scrape_trace. rewrite scrape_unfold in Hres.
  assert (Hfuel : result (loop fuel input [] 1 w) <> OutOfFuel).
  { intros E. rewrite E in Hres. discriminate. }
  destruct (@loop_decompose input fuel (initial w) Hfuel)
    as (visits & calls & s & Hr & _ & _ & Heq).
  cbn [initial st_jobs st_page st_world] in Heq. rewrite Heq in Hres |- *.
  cbn [after_calls result trace] in Hres |- *.
  destruct (rounds_state Hr) as (Hjobs & _). cbn in Hjobs.
  rewrite Hjobs in *.
  destruct (result (loop 1 input (collected visits) (st_page s) (st_world s)))
    as [out | e | ] eqn:E; try discriminate.
  pose proof (loop_one_returns _ _ _ _ E) as ->.
  injection Hres as <-. exists visits, calls, s. auto.
Qed.

Lemma loop_one_cases (input : ScraperInput) (job_list out : list JobPost)
      (page : Z) (w : World) :
  result (loop 1 input job_list page w) = Return out ->
  (results_wanted input <= len job_list
   /\ trace (loop 1 input job_list page w) = [])
  \/ (len job_list < results_wanted input
      /\ result (find_jobs input page w) = Return []
      /\ trace (loop 1 input job_list page w)
         = Log Info ("StandOutSearch search page: "
                     ++ str_of_int page)%string
           :: trace (find_jobs input page w)).
Proof.
  destruct (Z.le_gt_cases (results_wanted input) (len job_list)) as [Hq | Hq].
  - rewrite loop_quota_met by exact Hq. intros _. left. now split.
  - rewrite loop_below_quota by exact Hq. right.
    destruct (result (find_jobs input page w)) as [[ | job jobs] | e | ];
      cbn in *; try discriminate. auto.
Qed.

Lemma sleeps_page_calls (page : Z) (posts : list JobPost) :
  sleeps (page_calls page posts) = [delay].
Proof.
  unfold page_calls. cbn [sleeps].
  now rewrite sleeps_app, sleeps_details.
Qed.

Lemma sleeps_rounds (visits : list (visit World)) :
  sleeps (flat_map (fun v => page_calls (v_page v) (v_jobs v)) visits)
  = repeat delay (length visits).
Proof.
  induction visits as [ | v visits IH]; [reflexivity | ].
  cbn [flat_map length repeat].
  now rewrite sleeps_app, sleeps_page_calls, IH.
Qed.

(** Any run of the loop, whatever its end: some rounds, then nothing, or
    the calls of one more page that did not send the loop round again. *)
Lemma loop_shape (input : ScraperInput) (fuel : nat) :
  forall s,
    exists visits calls s' last,
      rounds input s visits calls s'
      /\ trace (loop fuel input (st_jobs s) (st_page s) (st_world s))
         = calls ++ last
      /\ (last = []
          \/ (last = Log Info ("StandOutSearch search page: "
                               ++ str_of_int (st_page s'))%string
                     :: trace (find_jobs input (st_page s') (st_world s'))
              /\ forall job jobs,
                  result (find_jobs input (st_page s') (st_world s'))
                  <> Return (job :: jobs))).
Proof.
  induction fuel as [ | fuel IH]; intros s.
  - exists [], [], s, []. split; [constructor | ]. split; [reflexivity | ].
    now left.
  - destruct (Z.le_gt_cases (results_wanted input) (len (st_jobs s)))
      as [Hq | Hq].
    + exists [], [], s, []. split; [constructor | ].
      rewrite loop_quota_met by exact Hq. split; [reflexivity | now left].
    + rewrite loop_below_quota by exact Hq.
      destruct (result (find_jobs input (st_page s) (st_world s)))
        as [[ | job jobs] | e | ] eqn:E.
      * exists [], [], s. eexists. split; [constructor | ].
        split; [reflexivity | ]. right. split; [reflexivity | ].
        intros job jobs. rewrite E. discriminate.
      * destruct (IH (LoopState (st_jobs s ++ job :: jobs) (st_page s + 1)
                        (world_after
                           (find_jobs input (st_page s) (st_world s)))))
          as (visits & calls & s' & last & Hr & Htrace & Hlast).
        exists (Visit (st_page s) (st_world s) (job :: jobs) :: visits),
          (iteration_calls session_get fetch_html BeautifulSoup input s
           ++ calls), s', last.
        split; [apply loops_round; auto; discriminate | ].
        split; [ | exact Hlast].
        cbn [after_calls trace st_jobs st_page st_world] in Htrace |- *.
        rewrite Htrace, app_assoc. now destruct s.
      * exists [], [], s. eexists. split; [constructor | ].
        split; [reflexivity | ]. right. split; [reflexivity | ].
        intros job jobs. rewrite E. discriminate.
      * exists [], [], s. eexists. split; [constructor | ].
        split; [reflexivity | ]. right. split; [reflexivity | ].
        intros job jobs. rewrite E. discriminate.
Qed.

(** X1. [scrape] pauses once, for [delay] = 5 seconds, after each listing
    page that gave jobs, as the last call made for that page, and never
    after a page that gave none. The calls of any run are: for each page
    that gave jobs, in order, the log line, the request for the page, the
    detail fetches of its records and then the pause; after these rounds
    either nothing, or the log line and the calls of one more page that
    gave no job (or raised), among which there is no pause. So every pause
    lasts 5 seconds, the pauses number as many as the pages that gave jobs,
    and that is the number of listing pages requested or one fewer. *)
Theorem scrape_sleeps_between_pages (fuel : nat) (input : ScraperInput)
        (w : World) :
  sleeps (trace (scrape_site fuel input w))
  = repeat 5 (length (sleeps (trace (scrape_site fuel input w))))
  /\ (length (sleeps (trace (scrape_site fuel input w)))
      <= length (listing_fetches (trace (scrape_site fuel input w)))
      <= S (length (sleeps (trace (scrape_site fuel input w)))))%nat
  /\ exists visits calls s last,
      rounds input (initial w) visits calls s
      /\ Forall (fun v => v_jobs v <> []) visits
      /\ trace (scrape_site fuel input w)
         = flat_map (fun v => page_calls (v_page v) (v_jobs v)) visits
           ++ last
      /\ sleeps (trace (scrape_site fuel input w))
         = repeat 5 (length visits)
      /\ sleeps last = []
      /\ (last = []
          \/ (last = Log Info ("StandOutSearch search page: "
                               ++ str_of_int (st_page s))%string
                     :: trace (find_jobs input (st_page s) (st_world s))
              /\ forall job jobs,
                  result (find_jobs input (st_page s) (st_world s))
                  <> Return (job :: jobs))).
Proof.
  rewrite scrape_trace.
  split; [exact (proj1 (loop_sleeps input fuel [] 1 w)) | ].
  split; [exact (proj2 (loop_sleeps input fuel [] 1 w)) | ].
  destruct (loop_shape input fuel (initial w))
    as (visits & calls & s & last & Hr & Htrace & Hlast).
  cbn [initial st_jobs st_page st_world] in Htrace.
  assert (Hquiet : sleeps last = []).
  { destruct Hlast as [-> | (-> & _)]; [reflexivity | ].
    cbn [sleeps]. apply find_jobs_sleeps. }
  exists visits, calls, s, last.
  split; [exact Hr | ].
  split; [ | split; [ | split; [ | split; [exact Hquiet | exact Hlast]]]].
  - eapply Forall_impl; [ | exact (rounds_visits Hr)].
    cbn. intros v (Hne & _). exact Hne.
  - now rewrite Htrace, (rounds_calls_shape Hr).
  - rewrite Htrace, (rounds_calls_shape Hr), sleeps_app, sleeps_rounds,
      Hquiet. apply app_nil_r.
Qed.

(** X3. When the quota is reached, [scrape] still pauses after the last
    page: if it returns [results_wanted > 0] records or more, the last call
    of the run is [time.sleep(5)]. *)
Theorem scrape_sleeps_after_last_page (fuel : nat) (input : ScraperInput)
        (w : World) (response : JobResponse) :
  result (scrape_site fuel input w) = Return response ->
  0 < results_wanted input <= len (jobs response) ->
  exists before, trace (scrape_site fuel input w) = before ++ [Sleep 5].
Proof.
  intros Hres Hq.
  destruct (scrape_returns_full _ _ _ Hres)
    as (visits & calls & s & Hr & Hjobs & -> & Hlast).
  destruct (loop_one_cases _ _ _ _ Hlast) as [(_ & ->) | (Hlt & _)].
  - rewrite app_nil_r. apply (rounds_calls_end Hr).
    intros ->. rewrite Hjobs in Hq. unfold slice_to, len in Hq.
    destruct (0 <=? results_wanted input); rewrite firstn_nil in Hq;
      cbn in Hq; lia.
  - rewrite Hjobs, slice_to_all in Hq by lia. lia.
Qed.

(** X4. [scrape] returns fewer records than wanted only when the last
    page it requested gave no job (a status other than 200, or no job
    container): the response is then everything the earlier pages gave,
    uncut, and the request for that page ends the run. *)
Theorem short_response_ends_on_empty_page (fuel : nat)
        (input : ScraperInput) (w : World) (response : JobResponse) :
  result (scrape_site fuel input w) = Return response ->
  len (jobs response) < results_wanted input ->
  exists visits calls s,
    rounds input (initial w) visits calls s
    /\ jobs response = collected visits
    /\ result (find_jobs input (st_page s) (st_world s)) = Return []
    /\ trace (scrape_site fuel input w)
       = calls ++ Log Info ("StandOutSearch search page: "
                            ++ str_of_int (st_page s))%string
               :: trace (find_jobs input (st_page s) (st_world s)).
Proof.
  intros Hres Hq.
  destruct (scrape_returns_full _ _ _ Hres)
    as (visits & calls & s & Hr & Hjobs & -> & Hlast).
  exists visits, calls, s. split; [exact Hr | ].
  destruct (loop_one_cases _ _ _ _ Hlast) as [(Hge & _) | (Hlt & Hpage & ->)].
  - exfalso. rewrite Hjobs in Hq. unfold slice_to, len in *.
    destruct (Z.leb_spec 0 (results_wanted input)) as [H0 | H0].
    + rewrite length_firstn in Hq. lia.
    + lia.
  - rewrite Hjobs, slice_to_all by lia. auto.
Qed.

(** X5. The records dropped by the final slice all come from the last page
    that gave jobs: before that page was requested, fewer records than
    wanted had been collected. *)
Theorem dropped_records_come_from_last_page (fuel : nat)
        (input : ScraperInput) (w : World) (response : JobResponse) :
  result (scrape_site fuel input w) = Return response ->
  exists visits calls s,
    rounds input (initial w) visits calls s
    /\ jobs response = slice_to (collected visits) (results_wanted input)
    /\ forall front last,
        visits = front ++ [last] ->
        len (collected front) < results_wanted input
        /\ collected visits = collected front ++ v_jobs last.
Proof.
  intros Hres.
  destruct (scrape_returns_full _ _ _ Hres)
    as (visits & calls & s & Hr & Hjobs & _ & _).
  exists visits, calls, s. split; [exact Hr | ]. split; [exact Hjobs | ].
  intros front last ->. split.
  - exact (rounds_below_quota Hr front last eq_refl).
  - rewrite collected_app. unfold collected at 2. cbn.
    now rewrite app_nil_r.
Qed.

(** X6. The calls of a run of [scrape] that returns, in full: for each page
    that gave jobs, in page order, the log line, the request for the
    page, one [fetch_html] per record of the page at the record's
    [job_url], in record order, and a pause of 5 seconds; then either
    nothing more (quota reached), or the log line and the request for one
    more page, which gave no job, followed by an error log line when its
    status was not 200. *)
Theorem scrape_calls_of_a_returning_run (fuel : nat) (input : ScraperInput)
        (w : World) (response : JobResponse) :
  result (scrape_site fuel input w) = Return response ->
  exists visits calls s last,
    rounds input (initial w) visits calls s
    /\ jobs response = slice_to (collected visits) (results_wanted input)
    /\ trace (scrape_site fuel input w)
       = flat_map (fun v => page_calls (v_page v) (v_jobs v)) visits ++ last
    /\ (last = []
        \/ last = [Log Info ("StandOutSearch search page: "
                             ++ str_of_int (1 + len visits))%string;
                   SessionGet (listing_url (1 + len visits))]
        \/ exists status,
            status <> 200
            /\ last = [Log Info ("StandOutSearch search page: "
                                 ++ str_of_int (1 + len visits))%string;
                       SessionGet (listing_url (1 + len visits));
                       Log Error ("Failed to fetch page "
                                  ++ str_of_int (1 + len visits) ++ ": "
                                  ++ str_of_int status)%string]).
Proof.
  intros Hres.
  destruct (scrape_returns_full _ _ _ Hres)
    as (visits & calls & s & Hr & Hjobs & Htrace & Hlast).
  destruct (rounds_state Hr) as (_ & Hpage). cbn [initial st_page] in Hpage.
  exists visits, calls, s,
    (trace (loop 1 input (collected visits) (st_page s) (st_world s))).
  split; [exact Hr | ]. split; [exact Hjobs | ].
  split; [now rewrite <- (rounds_calls_shape Hr) | ].
  destruct (loop_one_cases _ _ _ _ Hlast)
    as [(_ & ->) | (_ & Hempty & ->)]; [now left | right].
  rewrite <- Hpage.
  destruct (find_jobs_empty_trace _ _ _ Hempty)
    as [-> | (status & Hs & ->)]; [now left | right].
  exists status. now split.
Qed.

Lemma from_container_has_url (cs : list element) (posts : list JobPost) :
  Forall2 from_container cs posts ->
  Forall (fun post => job_url post <> None) posts.
Proof.
  induction 1 as [ | c post cs posts Hfrom _ IH]; constructor; [ | exact IH].
  now destruct Hfrom as (_ & _ & _ & a & _ & _ & Hurl).
Qed.

Lemma urls_of_total (posts : list JobPost) :
  Forall (fun post => job_url post <> None) posts ->
  map Some (urls_of posts) = map job_url posts.
Proof.
  induction 1 as [ | post posts Hurl _ IH]; [reflexivity | ].
  unfold urls_of in *. cbn [flat_map map].
  destruct (job_url post) as [url | ]; [ | now contradiction Hurl].
  cbn [app map]. now rewrite IH.
Qed.

Lemma detail_fetches_page_calls (page : Z) (posts : list JobPost) :
  detail_fetches (page_calls page posts) = urls_of posts.
Proof.
  unfold page_calls. cbn [detail_fetches].
  rewrite detail_fetches_app, detail_fetches_map. cbn.
  apply app_nil_r.
Qed.

Lemma detail_fetches_rounds (visits : list (visit World)) :
  detail_fetches (flat_map (fun v => page_calls (v_page v) (v_jobs v)) visits)
  = urls_of (collected visits).
Proof.
  induction visits as [ | v visits IH]; [reflexivity | ].
  unfold collected in *. cbn [flat_map map concat].
  now rewrite detail_fetches_app, urls_of_app, detail_fetches_page_calls, IH.
Qed.

Lemma rounds_have_urls (input : ScraperInput) s visits calls s' :
  rounds input s visits calls s' ->
  Forall (fun post => job_url post <> None) (collected visits).
Proof.
  intros Hr. unfold collected. apply Forall_concat, Forall_map.
  eapply Forall_impl; [ | exact (rounds_visits Hr)].
  cbn. intros v (_ & cs & _ & Hall). exact (from_container_has_url Hall).
Qed.

Lemma firstn_length_firstn (A B : Type) (n : nat) (l : list A) (l' : list B) :
  length l = length l' ->
  firstn (length (firstn n l)) l' = firstn n l'.
Proof.
  intros Hlen. rewrite length_firstn, Hlen.
  destruct (Nat.le_gt_cases n (length l')) as [H | H].
  - now rewrite Nat.min_l.
  - rewrite Nat.min_r by lia. rewrite !firstn_all2 by lia. reflexivity.
Qed.

(** X7. The records [scrape] returns are those of the first detail
    fetches of the run, one fetch per record and in the same order: the
    [job_url] of the i-th record is the url of the i-th call of
    [fetch_html]. *)
Theorem returned_records_follow_detail_fetches (fuel : nat)
        (input : ScraperInput) (w : World) (response : JobResponse) :
  result (scrape_site fuel input w) = Return response ->
  map job_url (jobs response)
  = map Some (firstn (length (jobs response))
                     (detail_fetches (trace (scrape_site fuel input w)))).
Proof.
  intros Hres.
  destruct (scrape_returns_full _ _ _ Hres)
    as (visits & calls & s & Hr & Hjobs & -> & Hlast).
  assert (Hfetched : detail_fetches
                       (calls ++ trace (loop 1 input (collected visits)
                                             (st_page s) (st_world s)))
                     = urls_of (collected visits)).
  { rewrite detail_fetches_app, (rounds_calls_shape Hr),
      detail_fetches_rounds.
    destruct (loop_one_cases _ _ _ _ Hlast)
      as [(_ & ->) | (_ & Hempty & ->)]; [apply app_nil_r | ].
    destruct (find_jobs_empty_trace _ _ _ Hempty)
      as [-> | (status & _ & ->)]; cbn; apply app_nil_r. }
  rewrite Hfetched.
  pose proof (urls_of_total (rounds_have_urls Hr)) as Hurls.
  assert (Hlen : length (collected visits)
                 = length (urls_of (collected visits))).
  { rewrite <- (length_map job_url), <- Hurls. apply length_map. }
  rewrite Hjobs. unfold slice_to.
  destruct (0 <=? results_wanted input);
    rewrite (firstn_length_firstn _ _ _ Hlen), <- !firstn_map, Hurls;
    reflexivity.
Qed.

(* ------------------------------------------------------------------ *)
(** *** Exceptions *)

(** X8. A job whose detail page cannot be had is not kept with empty
    details: on a container that has its mandatory fields and links to
    [h], [_process_job] calls [fetch_html h] once and, when that call
    raises, ends with the same exception; when the page comes back with a
    label that has no sibling to read, it ends with [AttributeError];
    otherwise it returns a record whose [job_url] is [h]. A missing
    deadline is no failure: the record then has no deadline. *)
Theorem detail_failure_fails_the_job (c : node) (w : World) (a : element)
        (h : string) :
  lacks_mandatory c = false ->
  find c "a" link_class None = Some a ->
  get_attr (el_node a) "href" = Some h ->
  match fetch_html h w with
  | (inl e, w') => process_job c w = Run (Raise e) w' [FetchHtml h]
  | (inr html, w') =>
      if some_dangling_label (BeautifulSoup html)
      then process_job c w
           = Run (Raise (AttributeError "get_text")) w' [FetchHtml h]
      else exists post,
          process_job c w = Run (Return (Some post)) w' [FetchHtml h]
          /\ job_url post = Some h
          /\ deadline post = optional_deadline c
  end.
Proof.
  intros Hok Ha Hh.
  destruct (process_job_complete c w Hok)
    as (te & ce & a' & h' & _ & _ & Ha' & Hh' & ->).
  rewrite Ha in Ha'. injection Ha' as <-.
  rewrite Hh in Hh'. injection Hh' as <-.
  destruct (fetch_html h w) as [[e | html] w']; [reflexivity | ].
  pose proof (parse_details_outcome html w') as Hparse.
  destruct (some_dangling_label (BeautifulSoup html)).
  - now rewrite Hparse.
  - destruct Hparse as (details & ->). eexists. repeat split.
Qed.

Lemma for_containers_app (pre rest : list element) :
  forall (acc : list JobPost) (w : World),
    containers_loop (pre ++ rest) acc w
    = match result (containers_loop pre acc w) with
      | Return jobs =>
          after_calls (trace (containers_loop pre acc w))
            (containers_loop rest jobs
               (world_after (containers_loop pre acc w)))
      | Raise e =>
          Run (Raise e) (world_after (containers_loop pre acc w))
              (trace (containers_loop pre acc w))
      | OutOfFuel =>
          Run OutOfFuel (world_after (containers_loop pre acc w))
              (trace (containers_loop pre acc w))
      end.
Proof.
  induction pre as [ | c pre IH]; intros acc w.
  - cbn. now rewrite after_calls_nil.
  - cbn [app]. rewrite !for_containers_cons.
    destruct (result (process_job (el_node c) w)) as [[post | ] | e | ];
      cbn [after_calls result world_after trace]; try reflexivity.
    + rewrite IH.
      destruct (result (containers_loop pre (acc ++ [post])
                          (world_after (process_job (el_node c) w))));
        cbn [after_calls result world_after trace]; try reflexivity.
      now rewrite after_calls_app.
    + rewrite IH.
      destruct (result (containers_loop pre acc
                          (world_after (process_job (el_node c) w))));
        cbn [after_calls result world_after trace]; try reflexivity.
      now rewrite after_calls_app.
Qed.

(** X9. The first container on which [_process_job] raises ends the page:
    the containers after it are not processed (no call is made for them)
    and the records built from the containers before it are not
    returned. *)
Theorem first_failing_container_ends_the_page
        (pre post : list element) (c : element) (acc jobs : list JobPost)
        (w : World) (e : exn) :
  result (containers_loop pre acc w) = Return jobs ->
  result (process_job (el_node c) (world_after (containers_loop pre acc w)))
  = Raise e ->
  containers_loop (pre ++ c :: post) acc w
  = Run (Raise e)
        (world_after
           (process_job (el_node c)
                        (world_after (containers_loop pre acc w))))
        (trace (containers_loop pre acc w)
         ++ trace (process_job (el_node c)
                               (world_after (containers_loop pre acc w)))).
Proof.
  intros Hpre Hc.
  rewrite for_containers_app, Hpre, for_containers_cons, Hc. reflexivity.
Qed.

(** X10. An exception on a listing page loses the whole scrape: when
    [_find_jobs_in_page] raises on a page that [scrape] requests, [scrape]
    ends with that exception right after the calls of that page, and the
    records collected from the earlier pages are not returned. *)
Theorem page_exception_aborts_scrape (input : ScraperInput)
        visits calls s (fuel : nat) (w0 : World) (e : exn) :
  rounds input (initial w0) visits calls s ->
  len (collected visits) < results_wanted input ->
  (length visits < fuel)%nat ->
  result (find_jobs input (st_page s) (st_world s)) = Raise e ->
  scrape_site fuel input w0
  = Run (Raise e)
        (world_after (find_jobs input (st_page s) (st_world s)))
        (calls ++ Log Info ("StandOutSearch search page: "
                            ++ str_of_int (st_page s))%string
               :: trace (find_jobs input (st_page s) (st_world s))).
Proof.
  intros Hr Hq Hfuel Hpage.
  destruct (scrape_after_rounds Hr Hfuel) as (fuel' & Heq).
  rewrite scrape_unfold, Heq.
  rewrite loop_below_quota by exact Hq. rewrite Hpage. reflexivity.
Qed.

(* ------------------------------------------------------------------ *)
(** *** Extracted text *)

Lemma append_empty_r (s : string) : (s ++ EmptyString)%string = s.
Proof. induction s as [ | c s IH]; cbn; congruence. Qed.

Lemma append_assoc (a b c : string) :
  ((a ++ b) ++ c)%string = (a ++ b ++ c)%string.
Proof. induction a as [ | x a IH]; cbn; congruence. Qed.

Lemma concat_empty_cons (x : string) (l : list string) :
  String.concat EmptyString (x :: l)
  = (x ++ String.concat EmptyString l)%string.
Proof.
  destruct l as [ | y l]; cbn; [now rewrite append_empty_r | reflexivity].
Qed.

Lemma lstrip_starts (s : string) : starts_with_space (lstrip s) = false.
Proof.
  induction s as [ | c s IH]; [reflexivity | ].
  cbn [lstrip]. destruct (isspace c) eqn:E; [exact IH | exact E].
Qed.

Lemma lstrip_suffix (s : string) :
  exists p, s = (p ++ lstrip s)%string.
Proof.
  induction s as [ | c s (p & IH)]; [now exists EmptyString | ].
  cbn [lstrip]. destruct (isspace c).
  - exists (String c p). cbn. now rewrite <- IH.
  - now exists EmptyString.
Qed.

Lemma rev_onto_spec (s acc : string) :
  rev_onto s acc = (reverse s ++ acc)%string.
Proof.
  unfold reverse. revert acc.
  induction s as [ | c s IH]; intros acc; [reflexivity | ].
  cbn [rev_onto]. rewrite (IH (String c acc)), (IH (String c EmptyString)).
  now rewrite append_assoc.
Qed.

Lemma rev_onto_app (a b acc : string) :
  rev_onto (a ++ b) acc = rev_onto b (rev_onto a acc).
Proof.
  revert acc. induction a as [ | c a IH]; intros acc; [reflexivity | ].
  cbn. apply IH.
Qed.

Lemma reverse_app (a b : string) :
  reverse (a ++ b) = (reverse b ++ reverse a)%string.
Proof.
  unfold reverse at 1. rewrite rev_onto_app. apply rev_onto_spec.
Qed.

Lemma reverse_involutive (s : string) : reverse (reverse s) = s.
Proof.
  induction s as [ | c s IH]; [reflexivity | ].
  change (String c s) with (String c EmptyString ++ s)%string at 1.
  rewrite reverse_app, reverse_app, IH. reflexivity.
Qed.

Lemma starts_with_space_app (a b : string) :
  starts_with_space (a ++ b)
  = if nonempty a then starts_with_space a else starts_with_space b.
Proof. now destruct a. Qed.

Lemma nonempty_reverse (s : string) : nonempty (reverse s) = nonempty s.
Proof.
  destruct s as [ | c s]; [reflexivity | ].
  change (String c s) with (String c EmptyString ++ s)%string.
  rewrite reverse_app. cbn.
  destruct (reverse s); reflexivity.
Qed.

Lemma strip_trimmed (s : string) : trimmed (Py.strip s).
Proof.
  unfold trimmed, ends_with_space, Py.strip, rstrip. split.
  - destruct (lstrip_suffix (reverse (lstrip s))) as (p & Hp).
    apply (f_equal reverse) in Hp.
    rewrite reverse_involutive, reverse_app in Hp.
    pose proof (lstrip_starts s) as Hs. rewrite Hp in Hs.
    rewrite starts_with_space_app in Hs.
    destruct (nonempty (reverse (lstrip (reverse (lstrip s))))) eqn:E;
      [exact Hs | ].
    now destruct (reverse (lstrip (reverse (lstrip s)))).
  - rewrite reverse_involutive. apply lstrip_starts.
Qed.

Lemma concat_trimmed (l : list string) :
  Forall (fun s => nonempty s = true /\ trimmed s) l ->
  trimmed (String.concat EmptyString l)
  /\ (l <> [] -> nonempty (String.concat EmptyString l) = true).
Proof.
  induction 1 as [ | s l (Hne & Hstart & Hend) _ (IHt & IHn)].
  - split; [now split | now intros H].
  - rewrite concat_empty_cons. split.
    + destruct IHt as (IHs & IHe). split.
      * now rewrite starts_with_space_app, Hne.
      * unfold ends_with_space in *. rewrite reverse_app.
        rewrite starts_with_space_app, nonempty_reverse.
        destruct l as [ | s' l]; [exact Hend | ].
        rewrite IHn by discriminate. exact IHe.
    + intros _. destruct s; [discriminate | reflexivity].
Qed.

Lemma get_text_strip_trimmed (n : node) : trimmed (get_text_strip n).
Proof.
  apply concat_trimmed.
  apply Forall_forall. intros s Hs. apply filter_In in Hs.
  destruct Hs as (Hin & Hne). split; [exact Hne | ].
  apply in_map_iff in Hin. destruct Hin as (raw & <- & _).
  apply strip_trimmed.
Qed.

Lemma parse_details_trimmed (html : string) (w : World) (details : JobPost) :
  result (parse_details html w) = Return details ->
  trimmed_field (location details) /\ trimmed_field (address details)
  /\ trimmed_field (mode details) /\ trimmed_field (description details).
Proof.
  unfold _parse_job_details, bind, labelled.
  set (soup := BeautifulSoup html).
  destruct (find soup "p" label_class (Some "Location:")) as [l | ];
    [destruct (find_next_sibling l "span") as [ls | ] | ]; cbn;
    try discriminate;
  (destruct (find soup "p" label_class (Some "Address:")) as [a | ];
    [destruct (find_next_sibling a "p") as [asib | ] | ]; cbn;
    try discriminate;
  (destruct (find soup "p" label_class (Some "Mode:")) as [m | ];
    [destruct (find_next_sibling m "span") as [ms | ] | ]; cbn;
    try discriminate;
  (destruct (find soup "p" label_class (Some "Description:")) as [d | ];
    [destruct (find_next_sibling d "p") as [ds | ] | ]; cbn;
    try discriminate;
    intros [= <-]; cbn;
    repeat split; try exact I;
    try apply get_text_strip_trimmed))).
Qed.

Lemma process_job_trimmed (c : node) (w : World) (post : JobPost) :
  result (process_job c w) = Return (Some post) -> trimmed_post post.
Proof.
  destruct (lacks_mandatory c) eqn:E.
  - destruct (process_job_incomplete c w E) as (e & -> & _). discriminate.
  - destruct (process_job_complete c w E)
      as (te & ce & a & h & _ & _ & _ & _ & ->).
    destruct (fetch_html h w) as [[e | html] w']; cbn; [discriminate | ].
    destruct (result (parse_details html w')) as [d | e | ] eqn:Hd; cbn;
      try discriminate.
    intros [= <-].
    destruct (parse_details_trimmed _ _ Hd) as (Hl & Ha & Hm & Hdesc).
    unfold trimmed_post, merged; cbn.
    repeat split; try apply get_text_strip_trimmed; auto;
      unfold optional_deadline;
      destruct (find c "span" deadline_class None); cbn;
      try exact I; apply get_text_strip_trimmed.
Qed.

Lemma for_containers_trimmed (cs : list element) :
  forall (acc jobs : list JobPost) (w : World),
    Forall trimmed_post acc ->
    result (containers_loop cs acc w) = Return jobs ->
    Forall trimmed_post jobs.
Proof.
  induction cs as [ | c cs IH]; intros acc jobs w Hacc.
  - cbn. now intros [= <-].
  - rewrite for_containers_cons.
    destruct (result (process_job (el_node c) w)) as [[post | ] | e | ] eqn:E;
      cbn [after_calls result]; try discriminate.
    + apply IH. apply Forall_app. split; [exact Hacc | ].
      constructor; [exact (process_job_trimmed _ _ E) | constructor].
    + now apply IH.
Qed.

Lemma find_jobs_trimmed (input : ScraperInput) (page : Z) (w : World)
      (jobs : list JobPost) :
  result (find_jobs input page w) = Return jobs -> Forall trimmed_post jobs.
Proof.
  rewrite find_jobs_unfold.
  destruct (session_get (listing_url page) w) as [[e | res] w1];
    [discriminate | ].
  destruct (status_code res =? 200).
  - cbn [after_calls result]. now apply for_containers_trimmed.
  - now intros [= <-].
Qed.

Lemma rounds_trimmed (input : ScraperInput) s visits calls s' :
  rounds input s visits calls s' ->
  Forall trimmed_post (collected visits).
Proof.
  induction 1 as [s | s jobs visits calls s' Hq Hres Hne _ IH];
    [constructor | ].
  unfold collected in *. cbn [map concat v_jobs].
  apply Forall_app. split; [exact (find_jobs_trimmed _ _ _ Hres) | exact IH].
Qed.

(** X12. Every text field of a record that [scrape] returns, [job_url]
    apart, is [None] or a text that neither begins nor ends with
    whitespace. ([job_url] is the [href] as written in the page.) *)
Theorem scrape_text_fields_are_trimmed (fuel : nat) (input : ScraperInput)
        (w : World) (response : JobResponse) :
  result (scrape_site fuel input w) = Return response ->
  Forall trimmed_post (jobs response).
Proof.
  intros Hres.
  destruct (scrape_returns_full _ _ _ Hres)
    as (visits & calls & s & Hr & -> & _ & _).
  apply slice_to_Forall. exact (rounds_trimmed Hr).
Qed.

(* ------------------------------------------------------------------ *)
(** *** Job containers *)

Lemma node_induction (P : node -> Prop) :
  (forall s, P (NavigableString s)) ->
  (forall name attrs classes children,
      Forall P children -> P (Tag name attrs classes children)) ->
  forall n, P n.
Proof.
  intros Hs Ht. fix IH 1. intros [s | name attrs classes children].
  - apply Hs.
  - apply Ht. induction children as [ | c cs IHcs]; constructor.
    + apply IH.
    + exact IHcs.
Qed.

Lemma descendants_cons (name : string) (attrs : list (string * string))
      (classes : list string) (child : node) (rest : list node) :
  descendants (Tag name attrs classes (child :: rest))
  = Element child rest
    :: descendants child ++ descendants (Tag name attrs classes rest).
Proof. reflexivity. Qed.

Lemma descendants_transitive (root : node) :
  forall c e,
    In c (descendants root) ->
    In e (descendants (el_node c)) ->
    In e (descendants root).
Proof.
  induction root as [s | name attrs classes children Hall]
    using node_induction; intros c e Hc He; [now cbn in Hc | ].
  induction Hall as [ | child rest Hchild _ IHrest]; [now cbn in Hc | ].
  rewrite descendants_cons in Hc |- *.
  destruct Hc as [<- | Hc]; [ | apply in_app_or in Hc; destruct Hc as [Hc | Hc]].
  - right. apply in_or_app. now left.
  - right. apply in_or_app. left. exact (Hchild c e Hc He).
  - right. apply in_or_app. right. exact (IHrest Hc).
Qed.

(** X13. The search for job containers goes to any depth: a [chakra-box]
    [div] that lies inside a job container is a job container of the page
    too, so a card nested in another card gives a record of its own. *)
Theorem nested_container_is_a_container (soup : node) (c e : element) :
  In c (job_containers soup) ->
  In e (job_containers (el_node c)) ->
  In e (job_containers soup).
Proof.
  unfold job_containers, find_all. intros Hc He.
  apply filter_In in Hc. apply filter_In in He.
  apply filter_In. split; [ | apply He].
  exact (descendants_transitive soup c e (proj1 Hc) (proj1 He)).
Qed.

End Properties.

(* ================================================================== *)
(** ** The inherited detail fetcher *)
(* ================================================================== *)

Section InheritedFetch.

Local Open Scope list_scope.

Variable World : Type.
Variable session_get : string -> World -> (exn + Response) * World.
Variable BeautifulSoup : string -> node.

Lemma site_relative_not_absolute (url : string) :
  is_site_relative url = true -> is_absolute url = false.
Proof.
  destruct url as [ | c url]; [discriminate | ].
  unfold is_site_relative, is_absolute. cbn [String.prefix].
  destruct (ascii_dec "/" c) as [<- | ]; [reflexivity | discriminate].
Qed.

Lemma resolve_site_relative (url : string) :
  is_site_relative url = true ->
  resolve_url url = (base_url ++ url)%string
  /\ is_absolute (resolve_url url) = true.
Proof.
  intros H. unfold resolve_url.
  rewrite (site_relative_not_absolute url H), H. split; reflexivity.
Qed.

(** C8. With the inherited [fetch_html] as the spec describes it,
    [_process_job] on a container whose link has href [h] calls
    [fetch_html] with [h] as extracted, and the GET of the detail page is
    [session.get] on [resolve_url h]: the host followed by [h] when [h] is
    site-relative, [h] itself when it is absolute. The outcome of that GET
    decides the outcome of [_process_job]. *)
Theorem detail_get_uses_resolved_url (c : node) (w : World)
        (te ce a : element) (h : string) :
  find c "p" title_class None = Some te ->
  find c "p" company_class None = Some ce ->
  find c "a" link_class None = Some a ->
  get_attr (el_node a) "href" = Some h ->
  _process_job (fetch_html_spec session_get) BeautifulSoup c w
  = after_calls [FetchHtml h]
      match session_get (resolve_url h) w with
      | (inl e, w') => Run (Raise e) w' []
      | (inr res, w') =>
          match result (_parse_job_details BeautifulSoup (text res) w') with
          | Return details =>
              Run (Return
                     (Some (merged (get_text_strip (el_node te))
                                   (get_text_strip (el_node ce))
                                   (optional_deadline c) h details)))
                  w' []
          | Raise e => Run (Raise e) w' []
          | OutOfFuel => Run OutOfFuel w' []
          end
      end
  /\ (is_site_relative h = true ->
      resolve_url h = (base_url ++ h)%string
      /\ is_absolute (resolve_url h) = true)
  /\ (is_absolute h = true -> resolve_url h = h).
Proof.
  intros Ht Hc Ha Hh. split; [ | split].
  - assert (Hok : lacks_mandatory c = false).
    { unfold lacks_mandatory. now rewrite Ht, Hc, Ha, Hh. }
    destruct (process_job_complete (fetch_html_spec session_get)
                BeautifulSoup c w Hok)
      as (te' & ce' & a' & h' & Ht' & Hc' & Ha' & Hh' & ->).
    rewrite Ht in Ht'. rewrite Hc in Hc'. rewrite Ha in Ha'.
    injection Ht' as <-. injection Hc' as <-. injection Ha' as <-.
    rewrite Hh in Hh'. injection Hh' as <-.
    unfold fetch_html_spec.
    destruct (session_get (resolve_url h) w) as [[e | res] w'];
      reflexivity.
  - apply resolve_site_relative.
  - intros Habs. unfold resolve_url. now rewrite Habs.
Qed.

End InheritedFetch.

(* ================================================================== *)
(** ** Runs on the scripted sites *)
(* ================================================================== *)

Import Fixtures.
Local Open Scope list_scope.

Lemma scrape_length_at_most_quota_witness :
  0 <= 2
  /\ (Z.to_nat 2 < 5)%nat
  /\ match result (run_scrape three_then_one 5 2) with
     | Return response => len (jobs response) <= 2
     | Raise _ => True
     | OutOfFuel => False
     end.
Proof.
  split; [lia | ]. split; [cbn; lia | ].
  apply (scrape_length_at_most_quota
           (site_get three_then_one) (site_fetch three_then_one)
           (site_parse three_then_one) (fuel := 5)
           {| results_wanted := 2 |} []);
    cbn; lia.
Defined.

Lemma scrape_terminates_within_quota_fetches_witness :
  0 <= 4
  /\ (Z.to_nat 4 < 5)%nat
  /\ result (run_scrape three_then_one 5 4) <> OutOfFuel
  /\ (forall fuel', (Z.to_nat 4 < fuel')%nat ->
                    run_scrape three_then_one fuel' 4
                    = run_scrape three_then_one 5 4)
  /\ Z.of_nat (length (listing_fetches
                         (trace (run_scrape three_then_one 5 4))))
     <= 4 + 1
  /\ Z.of_nat (length (listing_fetches
                         (trace (run_scrape three_then_one 5 4))))
     <= 4
  /\ exists visits calls s last,
      loops (site_get three_then_one) (site_fetch three_then_one)
            (site_parse three_then_one) {| results_wanted := 4 |}
            (initial []) visits calls s
      /\ Forall (fun v => v_jobs v <> []) visits
      /\ listing_fetches (trace (run_scrape three_then_one 5 4))
         = map (fun v => SessionGet (listing_url (v_page v))) visits ++ last
      /\ (length last <= 1)%nat.
Proof.
  split; [lia | ]. split; [cbn; lia | ].
  apply (scrape_terminates_within_quota_fetches
           (site_get three_then_one) (site_fetch three_then_one)
           (site_parse three_then_one) (fuel := 5)
           {| results_wanted := 4 |} []);
    cbn; lia.
Defined.

Lemma quota_checked_before_listing_fetch_witness :
  (0 <= 0
   /\ run_scrape three_then_one 1 0 = Run (Return {| jobs := [] |}) [] [])
  /\ (trace (run_scrape three_then_one 5 4)
      = [Log Info "StandOutSearch search page: 1";
         SessionGet (page 1);
         FetchHtml "/jobs/a"; FetchHtml "/jobs/b";
         FetchHtml "https://www.standoutsearch.com/jobs/c";
         Sleep 5;
         Log Info "StandOutSearch search page: 2"]
        ++ SessionGet (page 2) :: [FetchHtml "/jobs/d"; Sleep 5]
      /\ exists visits calls s,
          loops (site_get three_then_one) (site_fetch three_then_one)
                (site_parse three_then_one) {| results_wanted := 4 |}
                (initial []) visits calls s
          /\ len (collected visits) < 4
          /\ page 2 = listing_url (1 + len visits)
          /\ [Log Info "StandOutSearch search page: 1";
              SessionGet (page 1);
              FetchHtml "/jobs/a"; FetchHtml "/jobs/b";
              FetchHtml "https://www.standoutsearch.com/jobs/c";
              Sleep 5;
              Log Info "StandOutSearch search page: 2"]
             = calls ++ [Log Info ("StandOutSearch search page: "
                                   ++ str_of_int (1 + len visits))%string]).
Proof.
  split.
  - split; [lia | ].
    apply (proj1 (quota_checked_before_listing_fetch
                    (site_get three_then_one) (site_fetch three_then_one)
                    (site_parse three_then_one) 0
                    {| results_wanted := 0 |} [])).
    cbn; lia.
  - split; [vm_compute; reflexivity | ].
    apply (proj2 (quota_checked_before_listing_fetch
                    (site_get three_then_one) (site_fetch three_then_one)
                    (site_parse three_then_one) 5
                    {| results_wanted := 4 |} [])
                 _ _ [FetchHtml "/jobs/d"; Sleep 5]).
    vm_compute; reflexivity.
Defined.

Lemma scrape_records_have_title_and_company_witness :
  result (run_scrape two_then_error 5 10)
  = Return {| jobs := [summary_only "Intern A" "Acme" "/jobs/a";
                       summary_only "Intern B" "Bolt" "/jobs/b"] |}
  /\ Forall (fun post => title post <> None /\ company_name post <> None)
            [summary_only "Intern A" "Acme" "/jobs/a";
             summary_only "Intern B" "Bolt" "/jobs/b"].
Proof.
  split; [vm_compute; reflexivity | ].
  apply (scrape_records_have_title_and_company
           (site_get two_then_error) (site_fetch two_then_error)
           (site_parse two_then_error) 5 {| results_wanted := 10 |} []
           (response := {| jobs := [summary_only "Intern A" "Acme" "/jobs/a";
                                    summary_only "Intern B" "Bolt" "/jobs/b"]
                        |})).
  vm_compute; reflexivity.
Defined.

Lemma scrape_in_page_then_container_order_witness :
  result (run_scrape three_then_one 5 10)
  = Return {| jobs := [intern_a; intern_b; intern_c; intern_d] |}
  /\ exists visits calls s,
      loops (site_get three_then_one) (site_fetch three_then_one)
            (site_parse three_then_one) {| results_wanted := 10 |}
            (initial []) visits calls s
      /\ [intern_a; intern_b; intern_c; intern_d]
         = slice_to (collected visits) 10
      /\ map (@v_page (list string)) visits
         = map (fun i => 1 + Z.of_nat i) (seq 0 (length visits))
      /\ Forall (fun v =>
                   exists cs,
                     listing_containers (site_get three_then_one)
                                        (site_parse three_then_one)
                                        (v_page v) (v_world v) cs
                     /\ Forall2 from_container cs (v_jobs v))
                visits.
Proof.
  split; [vm_compute; reflexivity | ].
  apply (scrape_in_page_then_container_order
           (site_get three_then_one) (site_fetch three_then_one)
           (site_parse three_then_one) 5 {| results_wanted := 10 |} []
           (response := {| jobs := [intern_a; intern_b; intern_c; intern_d]
                        |})).
  vm_compute; reflexivity.
Defined.

Lemma details_fetched_before_truncation_witness :
  listing_containers (site_get three_then_one) (site_parse three_then_one)
                     1 []
                     (job_containers (site_parse three_then_one "listing 1"))
  /\ result (_find_jobs_in_page (site_get three_then_one)
                                (site_fetch three_then_one)
                                (site_parse three_then_one)
                                {| results_wanted := 1 |} 1 [])
     = Return [intern_a; intern_b; intern_c]
  /\ result (run_scrape three_then_one 2 1) = Return {| jobs := [intern_a] |}
  /\ detail_fetches (trace (run_scrape three_then_one 2 1))
     = ["/jobs/a"; "/jobs/b"; "https://www.standoutsearch.com/jobs/c"].
Proof.
  assert (Hcs : listing_containers
                  (site_get three_then_one) (site_parse three_then_one) 1 []
                  (job_containers (site_parse three_then_one "listing 1"))).
  { exists {| status_code := 200; text := "listing 1" |}, [page 1].
    repeat split; vm_compute; reflexivity. }
  assert (Hres : result (_find_jobs_in_page
                           (site_get three_then_one)
                           (site_fetch three_then_one)
                           (site_parse three_then_one)
                           {| results_wanted := 1 |} 1 [])
                 = Return [intern_a; intern_b; intern_c])
    by (vm_compute; reflexivity).
  split; [exact Hcs | ]. split; [exact Hres | ].
  destruct (details_fetched_before_truncation
              (site_fetch three_then_one)
              {| results_wanted := 1 |} Hcs Hres)
    as (_ & _ & _ & Hscrape).
  destruct (Hscrape eq_refl ltac:(unfold len; cbn; lia) 0%nat)
    as (Hreturned & Hfetched).
  split; [exact Hreturned | ].
  apply (f_equal (fun l => flat_map (fun o => match o with
                                              | Some u => [u]
                                              | None => []
                                              end) l)) in Hfetched.
  vm_compute in Hfetched. exact Hfetched.
Defined.

Lemma listing_failure_ends_pagination_witness :
  loops (site_get two_then_error) (site_fetch two_then_error)
        (site_parse two_then_error) {| results_wanted := 10 |}
        (initial [])
        [Visit 1 [] [summary_only "Intern A" "Acme" "/jobs/a";
                     summary_only "Intern B" "Bolt" "/jobs/b"]]
        [Log Info "StandOutSearch search page: 1"; SessionGet (page 1);
         FetchHtml "/jobs/a"; FetchHtml "/jobs/b"; Sleep 5]
        (LoopState [summary_only "Intern A" "Acme" "/jobs/a";
                    summary_only "Intern B" "Bolt" "/jobs/b"]
                   2 [page 1; "/jobs/a"; "/jobs/b"])
  /\ len [summary_only "Intern A" "Acme" "/jobs/a";
          summary_only "Intern B" "Bolt" "/jobs/b"] < 10
  /\ (1 < 5)%nat
  /\ run_scrape two_then_error 5 10
     = Run (Return {| jobs := [summary_only "Intern A" "Acme" "/jobs/a";
                               summary_only "Intern B" "Bolt" "/jobs/b"] |})
           [page 1; "/jobs/a"; "/jobs/b"; page 2]
           [Log Info "StandOutSearch search page: 1"; SessionGet (page 1);
            FetchHtml "/jobs/a"; FetchHtml "/jobs/b"; Sleep 5;
            Log Info "StandOutSearch search page: 2"; SessionGet (page 2);
            Log Error "Failed to fetch page 2: 500"].
Proof.
  assert (Hr : loops (site_get two_then_error) (site_fetch two_then_error)
                 (site_parse two_then_error) {| results_wanted := 10 |}
                 (initial [])
                 [Visit 1 [] [summary_only "Intern A" "Acme" "/jobs/a";
                              summary_only "Intern B" "Bolt" "/jobs/b"]]
                 [Log Info "StandOutSearch search page: 1";
                  SessionGet (page 1);
                  FetchHtml "/jobs/a"; FetchHtml "/jobs/b"; Sleep 5]
                 (LoopState [summary_only "Intern A" "Acme" "/jobs/a";
                             summary_only "Intern B" "Bolt" "/jobs/b"]
                            2 [page 1; "/jobs/a"; "/jobs/b"])).
  { apply (@loops_round _ (site_get two_then_error)
             (site_fetch two_then_error) (site_parse two_then_error)
             {| results_wanted := 10 |} (initial [])
             [summary_only "Intern A" "Acme" "/jobs/a";
              summary_only "Intern B" "Bolt" "/jobs/b"] [] []).
    - vm_compute; reflexivity.
    - vm_compute; reflexivity.
    - discriminate.
    - apply loops_here. }
  split; [exact Hr | ]. split; [vm_compute; reflexivity | ].
  split; [lia | ].
  pose proof (listing_failure_ends_pagination (fuel := 5) Hr
                ltac:(vm_compute; reflexivity) ltac:(cbn; lia)) as Hstop.
  apply Hstop. left. vm_compute. discriminate.
Defined.

Lemma incomplete_container_aborts_scrape_witness :
  loops (site_get one_card_without_title)
        (site_fetch one_card_without_title)
        (site_parse one_card_without_title) {| results_wanted := 10 |}
        (initial []) [] [] (initial [])
  /\ len (@collected (list string) []) < 10
  /\ (0 < 5)%nat
  /\ listing_containers
       (site_get one_card_without_title) (site_parse one_card_without_title)
       1 []
       (job_containers (site_parse one_card_without_title "listing 1"))
  /\ existsb (fun c => lacks_mandatory (el_node c))
             (job_containers (site_parse one_card_without_title "listing 1"))
     = true
  /\ (exists e,
         result (_find_jobs_in_page (site_get one_card_without_title)
                                    (site_fetch one_card_without_title)
                                    (site_parse one_card_without_title)
                                    {| results_wanted := 10 |} 1 [])
         = Raise e
         /\ result (run_scrape one_card_without_title 5 10) = Raise e)
  /\ existsb is_warning (trace (run_scrape one_card_without_title 5 10))
     = false
  /\ _process_job (site_fetch one_card_without_title)
                  (site_parse one_card_without_title)
                  (card_without_title "Bolt" "/jobs/b") []
     = Run (Raise (AttributeError "get_text")) [] []
  /\ _process_job (site_fetch one_card_without_title)
                  (site_parse one_card_without_title)
                  (card_without_company "Intern B" "/jobs/b") []
     = Run (Raise (AttributeError "get_text")) [] []
  /\ _process_job (site_fetch one_card_without_title)
                  (site_parse one_card_without_title)
                  (card_without_link "Intern B" "Bolt") []
     = Run (Raise TypeError) [] []
  /\ _process_job (site_fetch one_card_without_title)
                  (site_parse one_card_without_title)
                  (card_without_href "Intern B" "Bolt") []
     = Run (Raise (KeyError "href")) [] []
  /\ exists post,
      _process_job (site_fetch one_card_without_title)
                   (site_parse one_card_without_title)
                   (card "Intern A" "Acme" "/jobs/a") []
      = Run (Return (Some post)) ["/jobs/a"] [FetchHtml "/jobs/a"]
      /\ deadline post = None
      /\ title post = Some "Intern A"
      /\ company_name post = Some "Acme"
      /\ job_url post = Some "/jobs/a".
Proof.
  unfold run_scrape.
  assert (Hcs : listing_containers
                  (site_get one_card_without_title)
                  (site_parse one_card_without_title) 1 []
                  (job_containers
                     (site_parse one_card_without_title "listing 1"))).
  { exists {| status_code := 200; text := "listing 1" |}, [page 1].
    repeat split; vm_compute; reflexivity. }
  split; [apply loops_here | ]. split; [vm_compute; reflexivity | ].
  split; [lia | ]. split; [exact Hcs | ].
  split; [vm_compute; reflexivity | ].
  destruct (incomplete_container_aborts_scrape
              (fetch_html := site_fetch one_card_without_title)
              (input := {| results_wanted := 10 |}) (fuel := 5)
              (@loops_here _ _ _ _ _ (initial []))
              ltac:(vm_compute; reflexivity) ltac:(cbn; lia) Hcs
              ltac:(vm_compute; reflexivity))
    as (_ & Hscrape & Hwarning & Htitle & Hcompany & Hlink & Hhref & Hdeadline).
  split; [exact Hscrape | ]. split; [exact Hwarning | ].
  split; [apply Htitle; vm_compute; reflexivity | ].
  split; [eapply Hcompany; vm_compute; reflexivity | ].
  split; [eapply Hlink; vm_compute; reflexivity | ].
  split; [eapply Hhref; vm_compute; reflexivity | ].
  exact (Hdeadline (card "Intern A" "Acme" "/jobs/a") []
           (Element (p_text ["chakra-text"; "css-134zrag"] "Intern A")
                    [p_text ["chakra-text"; "css-14pw5qv"] "Acme";
                     apply_link [("href", "/jobs/a")]])
           (Element (p_text ["chakra-text"; "css-14pw5qv"] "Acme")
                    [apply_link [("href", "/jobs/a")]])
           (Element (apply_link [("href", "/jobs/a")]) [])
           "/jobs/a" "detail a" ["/jobs/a"]
           eq_refl eq_refl eq_refl eq_refl eq_refl eq_refl eq_refl).
Defined.

Lemma detail_get_uses_resolved_url_witness :
  world_after
    (_process_job (fetch_html_spec (site_get absolute_details))
                  (site_parse absolute_details)
                  (card "Intern A" "Acme" "/jobs/a") [])
  = ["https://www.standoutsearch.com/jobs/a"]
  /\ world_after
       (_process_job (fetch_html_spec (site_get absolute_details))
                     (site_parse absolute_details)
                     (card "Intern B" "Bolt"
                           "https://www.standoutsearch.com/jobs/b") [])
     = ["https://www.standoutsearch.com/jobs/b"].
Proof.
  split.
  - rewrite (proj1 (detail_get_uses_resolved_url
                      (site_get absolute_details)
                      (site_parse absolute_details)
                      (card "Intern A" "Acme" "/jobs/a") []
                      (h := "/jobs/a")
                      eq_refl eq_refl eq_refl eq_refl)).
    vm_compute; reflexivity.
  - rewrite (proj1 (detail_get_uses_resolved_url
                      (site_get absolute_details)
                      (site_parse absolute_details)
                      (card "Intern B" "Bolt"
                            "https://www.standoutsearch.com/jobs/b") []
                      (h := "https://www.standoutsearch.com/jobs/b")
                      eq_refl eq_refl eq_refl eq_refl)).
    vm_compute; reflexivity.
Defined.

(** *** Where the code departs from the stated policies *)

(** C2, as stated, fails when the transport raises on page 1: [scrape]
    ends with the exception and does not return the (empty) list of the
    records collected so far. *)
Lemma transport_exception_escapes_scrape :
  result (run_scrape unreachable 5 10)
  = Raise (CollaboratorError "ConnectionError")
  /\ ~ every_listing_failure_ends_pagination
         (site_get unreachable) (site_fetch unreachable)
         (site_parse unreachable).
Proof.
  split; [vm_compute; reflexivity | ].
  intros Hclaim.
  specialize (Hclaim {| results_wanted := 10 |} (@nil (visit (list string)))
                     (@nil event) (initial (@nil string)) 5%nat (@nil string)
                     (@loops_here _ _ _ _ _ _)
                     ltac:(vm_compute; reflexivity) ltac:(cbn; lia) I).
  vm_compute in Hclaim. discriminate Hclaim.
Qed.

(** C5, as stated, fails on a page whose second card has no title:
    [_find_jobs_in_page] raises [AttributeError] after the detail fetch of
    the first card, the third card is never processed, no warning is
    logged and [scrape] returns nothing. *)
Lemma incomplete_container_not_skipped :
  run_scrape one_card_without_title 5 10
  = Run (Raise (AttributeError "get_text"))
        [page 1; "/jobs/a"]
        [Log Info "StandOutSearch search page: 1"; SessionGet (page 1);
         FetchHtml "/jobs/a"]
  /\ ~ incomplete_container_is_skipped
         (site_get one_card_without_title)
         (site_fetch one_card_without_title)
         (site_parse one_card_without_title).
Proof.
  split; [vm_compute; reflexivity | ].
  intros Hclaim.
  destruct (Hclaim {| results_wanted := 10 |} 1 []
                   (job_containers
                      (site_parse one_card_without_title "listing 1")))
    as (jobs & Hres & _).
  - exists {| status_code := 200; text := "listing 1" |}, [page 1].
    repeat split; vm_compute; reflexivity.
  - vm_compute; reflexivity.
  - vm_compute in Hres. discriminate Hres.
Qed.

(** *** Detail pages *)

Example parse_full_detail :
  result (@_parse_job_details (list string)
            (site_parse three_then_one) "detail a" [])
  = Return {| title := None; company_name := None; deadline := None;
              job_url := None;
              location := Some "Boston, MA"; address := Some "1 Main St";
              mode := Some "Hybrid";
              description := Some "Summer internship." |}.
Proof. vm_compute; reflexivity. Qed.

Example parse_bare_detail :
  result (@_parse_job_details (list string)
            (site_parse three_then_one) "detail c" [])
  = Return {| title := None; company_name := None; deadline := None;
              job_url := None;
              location := None; address := None; mode := None;
              description := None |}.
Proof. vm_compute; reflexivity. Qed.

(** The sibling read is the first later [span], adjacent or not. *)
Example parse_distant_span :
  option_map (@location)
    (match result (@_parse_job_details (list string)
                     (site_parse three_then_one) "detail d" []) with
     | Return d => Some d
     | _ => None
     end)
  = Some (Some "Austin").
Proof. vm_compute; reflexivity. Qed.

(** A label that no [span] follows makes the parse raise. *)
Example parse_dangling_label :
  result (@_parse_job_details (list string)
            (fun _ => dangling_label_detail) "detail" [])
  = Raise (AttributeError "get_text").
Proof. vm_compute; reflexivity. Qed.

(** *** Further runs *)

Lemma scrape_sleeps_after_last_page_witness :
  result (run_scrape three_then_one 5 1) = Return {| jobs := [intern_a] |}
  /\ 0 < 1 <= len [intern_a]
  /\ exists before,
      trace (run_scrape three_then_one 5 1) = before ++ [Sleep 5].
Proof.
  unfold run_scrape.
  assert (Hres : result (scrape (site_get three_then_one) (site_fetch three_then_one)
                            (site_parse three_then_one) 5
                            {| results_wanted := 1 |} [])
                 = Return {| jobs := [intern_a] |})
    by (vm_compute; reflexivity).
  split; [exact Hres | ]. split; [vm_compute; split; [reflexivity | discriminate] | ].
  apply (scrape_sleeps_after_last_page
           (site_get three_then_one) (site_fetch three_then_one)
           (site_parse three_then_one) 5 {| results_wanted := 1 |} [] Hres).
  vm_compute; split; [reflexivity | discriminate].
Defined.

Lemma short_response_ends_on_empty_page_witness :
  result (run_scrape three_then_one 5 10)
  = Return {| jobs := [intern_a; intern_b; intern_c; intern_d] |}
  /\ len [intern_a; intern_b; intern_c; intern_d] < 10
  /\ exists visits calls s,
      loops (site_get three_then_one) (site_fetch three_then_one)
            (site_parse three_then_one) {| results_wanted := 10 |}
            (initial []) visits calls s
      /\ [intern_a; intern_b; intern_c; intern_d] = collected visits
      /\ result (_find_jobs_in_page
                   (site_get three_then_one) (site_fetch three_then_one)
                   (site_parse three_then_one) {| results_wanted := 10 |}
                   (st_page s) (st_world s))
         = Return []
      /\ trace (run_scrape three_then_one 5 10)
         = calls ++ Log Info ("StandOutSearch search page: "
                              ++ str_of_int (st_page s))%string
                 :: trace (_find_jobs_in_page
                             (site_get three_then_one)
                             (site_fetch three_then_one)
                             (site_parse three_then_one)
                             {| results_wanted := 10 |}
                             (st_page s) (st_world s)).
Proof.
  unfold run_scrape.
  assert (Hres : result (scrape (site_get three_then_one) (site_fetch three_then_one)
                            (site_parse three_then_one) 5
                            {| results_wanted := 10 |} [])
                 = Return {| jobs := [intern_a; intern_b; intern_c;
                                      intern_d] |})
    by (vm_compute; reflexivity).
  split; [exact Hres | ]. split; [vm_compute; reflexivity | ].
  apply (short_response_ends_on_empty_page
           (site_get three_then_one) (site_fetch three_then_one)
           (site_parse three_then_one) 5 {| results_wanted := 10 |} [] Hres).
  vm_compute; reflexivity.
Defined.

Lemma dropped_records_come_from_last_page_witness :
  result (run_scrape three_then_one 5 2)
  = Return {| jobs := [intern_a; intern_b] |}
  /\ exists visits calls s,
      loops (site_get three_then_one) (site_fetch three_then_one)
            (site_parse three_then_one) {| results_wanted := 2 |}
            (initial []) visits calls s
      /\ [intern_a; intern_b] = slice_to (collected visits) 2
      /\ forall front last,
          visits = front ++ [last] ->
          len (collected front) < 2
          /\ collected visits = collected front ++ v_jobs last.
Proof.
  unfold run_scrape.
  assert (Hres : result (scrape (site_get three_then_one) (site_fetch three_then_one)
                            (site_parse three_then_one) 5
                            {| results_wanted := 2 |} [])
                 = Return {| jobs := [intern_a; intern_b] |})
    by (vm_compute; reflexivity).
  split; [exact Hres | ].
  exact (dropped_records_come_from_last_page
           (site_get three_then_one) (site_fetch three_then_one)
           (site_parse three_then_one) 5 {| results_wanted := 2 |} [] Hres).
Defined.

Lemma scrape_calls_of_a_returning_run_witness :
  result (run_scrape two_then_error 5 10)
  = Return {| jobs := [summary_only "Intern A" "Acme" "/jobs/a";
                       summary_only "Intern B" "Bolt" "/jobs/b"] |}
  /\ exists visits calls s last,
      loops (site_get two_then_error) (site_fetch two_then_error)
            (site_parse two_then_error) {| results_wanted := 10 |}
            (initial []) visits calls s
      /\ [summary_only "Intern A" "Acme" "/jobs/a";
          summary_only "Intern B" "Bolt" "/jobs/b"]
         = slice_to (collected visits) 10
      /\ trace (run_scrape two_then_error 5 10)
         = flat_map (fun v => page_calls (v_page v) (v_jobs v)) visits ++ last
      /\ (last = []
          \/ last = [Log Info ("StandOutSearch search page: "
                               ++ str_of_int (1 + len visits))%string;
                     SessionGet (listing_url (1 + len visits))]
          \/ exists status,
              status <> 200
              /\ last = [Log Info ("StandOutSearch search page: "
                                   ++ str_of_int (1 + len visits))%string;
                         SessionGet (listing_url (1 + len visits));
                         Log Error ("Failed to fetch page "
                                    ++ str_of_int (1 + len visits) ++ ": "
                                    ++ str_of_int status)%string]).
Proof.
  unfold run_scrape.
  assert (Hres : result (scrape (site_get two_then_error) (site_fetch two_then_error)
                            (site_parse two_then_error) 5
                            {| results_wanted := 10 |} [])
                 = Return {| jobs := [summary_only "Intern A" "Acme" "/jobs/a";
                                      summary_only "Intern B" "Bolt"
                                                   "/jobs/b"] |})
    by (vm_compute; reflexivity).
  split; [exact Hres | ].
  exact (scrape_calls_of_a_returning_run
           (site_get two_then_error) (site_fetch two_then_error)
           (site_parse two_then_error) 5 {| results_wanted := 10 |} [] Hres).
Defined.

Lemma returned_records_follow_detail_fetches_witness :
  result (run_scrape three_then_one 5 2)
  = Return {| jobs := [intern_a; intern_b] |}
  /\ map job_url [intern_a; intern_b]
     = map Some (firstn 2 (detail_fetches
                             (trace (run_scrape three_then_one 5 2)))).
Proof.
  unfold run_scrape.
  assert (Hres : result (scrape (site_get three_then_one) (site_fetch three_then_one)
                            (site_parse three_then_one) 5
                            {| results_wanted := 2 |} [])
                 = Return {| jobs := [intern_a; intern_b] |})
    by (vm_compute; reflexivity).
  split; [exact Hres | ].
  exact (returned_records_follow_detail_fetches
           (site_get three_then_one) (site_fetch three_then_one)
           (site_parse three_then_one) 5 {| results_wanted := 2 |} [] Hres).
Defined.

Lemma detail_failure_fails_the_job_witness :
  lacks_mandatory (card "Intern Z" "Zed" "/jobs/z") = false
  /\ find (card "Intern Z" "Zed" "/jobs/z") "a" link_class None
     = Some (Element (apply_link [("href", "/jobs/z")]) [])
  /\ get_attr (apply_link [("href", "/jobs/z")]) "href" = Some "/jobs/z"
  /\ _process_job (site_fetch missing_detail) (site_parse missing_detail)
                  (card "Intern Z" "Zed" "/jobs/z") []
     = Run (Raise (CollaboratorError "no such page")) ["/jobs/z"]
           [FetchHtml "/jobs/z"].
Proof.
  split; [vm_compute; reflexivity | ].
  split; [vm_compute; reflexivity | ].
  split; [vm_compute; reflexivity | ].
  exact (detail_failure_fails_the_job
           (site_fetch missing_detail) (site_parse missing_detail)
           (card "Intern Z" "Zed" "/jobs/z") []
           (a := Element (apply_link [("href", "/jobs/z")]) [])
           (h := "/jobs/z") eq_refl eq_refl eq_refl).
Defined.

Lemma first_failing_container_ends_the_page_witness :
  result (for_containers (site_fetch missing_detail)
                         (site_parse missing_detail)
                         (firstn 1 (job_containers
                                      (site_parse missing_detail "listing 1")))
                         [] [page 1])
  = Return [summary_only "Intern A" "Acme" "/jobs/a"]
  /\ result (_process_job (site_fetch missing_detail)
                          (site_parse missing_detail)
                          (card "Intern Z" "Zed" "/jobs/z")
                          [page 1; "/jobs/a"])
     = Raise (CollaboratorError "no such page")
  /\ for_containers (site_fetch missing_detail) (site_parse missing_detail)
                    (job_containers (site_parse missing_detail "listing 1"))
                    [] [page 1]
     = Run (Raise (CollaboratorError "no such page"))
           [page 1; "/jobs/a"; "/jobs/z"]
           [FetchHtml "/jobs/a"; FetchHtml "/jobs/z"].
Proof.
  split; [vm_compute; reflexivity | ].
  split; [vm_compute; reflexivity | ].
  exact (first_failing_container_ends_the_page
           (site_fetch missing_detail) (site_parse missing_detail)
           (firstn 1 (job_containers (site_parse missing_detail "listing 1")))
           (skipn 2 (job_containers (site_parse missing_detail "listing 1")))
           (Element (card "Intern Z" "Zed" "/jobs/z")
                    [card "Intern C" "Cyan" "/jobs/c"])
           [] [page 1]
           (jobs := [summary_only "Intern A" "Acme" "/jobs/a"])
           (e := CollaboratorError "no such page")
           eq_refl eq_refl).
Defined.

Lemma page_exception_aborts_scrape_witness :
  loops (site_get two_then_unreachable) (site_fetch two_then_unreachable)
        (site_parse two_then_unreachable) {| results_wanted := 10 |}
        (initial [])
        [Visit 1 [] [summary_only "Intern A" "Acme" "/jobs/a";
                     summary_only "Intern B" "Bolt" "/jobs/b"]]
        [Log Info "StandOutSearch search page: 1"; SessionGet (page 1);
         FetchHtml "/jobs/a"; FetchHtml "/jobs/b"; Sleep 5]
        (LoopState [summary_only "Intern A" "Acme" "/jobs/a";
                    summary_only "Intern B" "Bolt" "/jobs/b"]
                   2 [page 1; "/jobs/a"; "/jobs/b"])
  /\ len [summary_only "Intern A" "Acme" "/jobs/a";
          summary_only "Intern B" "Bolt" "/jobs/b"] < 10
  /\ (1 < 5)%nat
  /\ result (_find_jobs_in_page
               (site_get two_then_unreachable)
               (site_fetch two_then_unreachable)
               (site_parse two_then_unreachable) {| results_wanted := 10 |}
               2 [page 1; "/jobs/a"; "/jobs/b"])
     = Raise (CollaboratorError "ConnectionError")
  /\ run_scrape two_then_unreachable 5 10
     = Run (Raise (CollaboratorError "ConnectionError"))
           [page 1; "/jobs/a"; "/jobs/b"; page 2]
           [Log Info "StandOutSearch search page: 1"; SessionGet (page 1);
            FetchHtml "/jobs/a"; FetchHtml "/jobs/b"; Sleep 5;
            Log Info "StandOutSearch search page: 2"; SessionGet (page 2)].
Proof.
  assert (Hr : loops (site_get two_then_unreachable)
                 (site_fetch two_then_unreachable)
                 (site_parse two_then_unreachable) {| results_wanted := 10 |}
                 (initial [])
                 [Visit 1 [] [summary_only "Intern A" "Acme" "/jobs/a";
                              summary_only "Intern B" "Bolt" "/jobs/b"]]
                 [Log Info "StandOutSearch search page: 1";
                  SessionGet (page 1);
                  FetchHtml "/jobs/a"; FetchHtml "/jobs/b"; Sleep 5]
                 (LoopState [summary_only "Intern A" "Acme" "/jobs/a";
                             summary_only "Intern B" "Bolt" "/jobs/b"]
                            2 [page 1; "/jobs/a"; "/jobs/b"])).
  { apply (@loops_round _ (site_get two_then_unreachable)
             (site_fetch two_then_unreachable)
             (site_parse two_then_unreachable)
             {| results_wanted := 10 |} (initial [])
             [summary_only "Intern A" "Acme" "/jobs/a";
              summary_only "Intern B" "Bolt" "/jobs/b"] [] []).
    - vm_compute; reflexivity.
    - vm_compute; reflexivity.
    - discriminate.
    - apply loops_here. }
  split; [exact Hr | ]. split; [vm_compute; reflexivity | ].
  split; [lia | ]. split; [vm_compute; reflexivity | ].
  exact (page_exception_aborts_scrape (fuel := 5) Hr
           ltac:(vm_compute; reflexivity) ltac:(cbn; lia)
           (e := CollaboratorError "ConnectionError")
           ltac:(vm_compute; reflexivity)).
Defined.

Lemma scrape_text_fields_are_trimmed_witness :
  result (run_scrape three_then_one 5 10)
  = Return {| jobs := [intern_a; intern_b; intern_c; intern_d] |}
  /\ Forall trimmed_post [intern_a; intern_b; intern_c; intern_d].
Proof.
  unfold run_scrape.
  assert (Hres : result (scrape (site_get three_then_one) (site_fetch three_then_one)
                            (site_parse three_then_one) 5
                            {| results_wanted := 10 |} [])
                 = Return {| jobs := [intern_a; intern_b; intern_c;
                                      intern_d] |})
    by (vm_compute; reflexivity).
  split; [exact Hres | ].
  exact (scrape_text_fields_are_trimmed
           (site_get three_then_one) (site_fetch three_then_one)
           (site_parse three_then_one) 5 {| results_wanted := 10 |} [] Hres).
Defined.

Lemma nested_container_is_a_container_witness :
  In (Element outer_card []) (job_containers nested_cards)
  /\ In (Element (card "Inner" "Bolt" "/jobs/inner") [])
        (job_containers outer_card)
  /\ In (Element (card "Inner" "Bolt" "/jobs/inner") [])
        (job_containers nested_cards).
Proof.
  assert (Houter : In (Element outer_card []) (job_containers nested_cards))
    by (vm_compute; left; reflexivity).
  assert (Hinner : In (Element (card "Inner" "Bolt" "/jobs/inner") [])
                      (job_containers outer_card))
    by (vm_compute; left; reflexivity).
  split; [exact Houter | ]. split; [exact Hinner | ].
  exact (nested_container_is_a_container nested_cards
           (Element outer_card []) _ Houter Hinner).
Defined.

Lemma scrape_sleeps_between_pages_witness :
  sleeps (trace (run_scrape two_then_error 5 10)) = [5]
  /\ exists visits calls s last,
      loops (site_get two_then_error) (site_fetch two_then_error)
            (site_parse two_then_error) {| results_wanted := 10 |}
            (initial []) visits calls s
      /\ Forall (fun v => v_jobs v <> []) visits
      /\ trace (run_scrape two_then_error 5 10)
         = flat_map (fun v => page_calls (v_page v) (v_jobs v)) visits
           ++ last
      /\ sleeps (trace (run_scrape two_then_error 5 10))
         = repeat 5 (length visits)
      /\ sleeps last = []
      /\ (last = []
          \/ (last = Log Info ("StandOutSearch search page: "
                               ++ str_of_int (st_page s))%string
                     :: trace (_find_jobs_in_page
                                 (site_get two_then_error)
                                 (site_fetch two_then_error)
                                 (site_parse two_then_error)
                                 {| results_wanted := 10 |}
                                 (st_page s) (st_world s))
              /\ forall job jobs,
                  result (_find_jobs_in_page
                            (site_get two_then_error)
                            (site_fetch two_then_error)
                            (site_parse two_then_error)
                            {| results_wanted := 10 |}
                            (st_page s) (st_world s))
                  <> Return (job :: jobs))).
Proof.
  unfold run_scrape.
  split; [vm_compute; reflexivity | ].
  exact (proj2 (proj2 (scrape_sleeps_between_pages
                         (site_get two_then_error) (site_fetch two_then_error)
                         (site_parse two_then_error) 5
                         {| results_wanted := 10 |} []))).
Defined.
